(** * Code-Narrator front end: a shallow embedding of the React components

    The development follows the sources under
    [frontend/autodoc-frontend/src]: [App.js], [components/CodeUpload.js],
    [components/RecentFiles.js], [components/Documentation.js],
    [components/Suggestions.js] and [components/Dashboard.js].

    Conventions.
    - A JavaScript string is a Rocq [string]; the character classes, the
      line terminators and the case mapping below are those of ECMAScript
      on ASCII text.  A statement that depends on what they do with other
      characters is made for ASCII text ([Text.ascii_only]).
    - A JavaScript Number is the rational it denotes; the arithmetic of
      IEEE-754 binary64 is written out in [Module Binary64].
    - A handler that awaits the network is a function of the answers it
      receives, and returns the state it leaves and the calls it made. *)

From Stdlib Require Import String Ascii List Bool Arith ZArith QArith Qround
  Qpower Lia Lqa Floats Sorted Permutation.
From Stdlib Require Reals Qreals Lra.
Import ListNotations.

#[local] Set Warnings "-register-all".
Local Open Scope string_scope.

(** ** Strings *)

Module Str.

(** The double quote, which no literal of this file contains. *)
Definition dq : string := String (ascii_of_nat 34) EmptyString.

Definition code (c : ascii) : nat := nat_of_ascii c.

Definition between (lo hi : nat) (c : ascii) : bool :=
  (lo <=? code c)%nat && (code c <=? hi)%nat.

(** [\s] of ECMAScript, on ASCII: TAB, LF, VT, FF, CR and SPACE. *)
Definition is_space (c : ascii) : bool :=
  between 9 13 c || (code c =? 32)%nat.

(** [\w]: [[A-Za-z0-9_]]. *)
Definition is_word (c : ascii) : bool :=
  between 97 122 c || between 65 90 c || between 48 57 c
  || (code c =? 95)%nat.

(** The line terminators of ASCII: LF and CR. *)
Definition is_line_terminator (c : ascii) : bool :=
  (code c =? 10)%nat || (code c =? 13)%nat.

(** [.] without the flag [s]: anything but a line terminator. *)
Definition is_dot (c : ascii) : bool := negb (is_line_terminator c).

Definition lower_char (c : ascii) : ascii :=
  if between 65 90 c then ascii_of_nat (code c + 32) else c.

(** [String.prototype.toLowerCase], on ASCII text. *)
Fixpoint toLowerCase (s : string) : string :=
  match s with
  | EmptyString => EmptyString
  | String c s' => String (lower_char c) (toLowerCase s')
  end.

(** [s.split(sep)] for a one-character separator: never empty. *)
Fixpoint split (sep : ascii) (s : string) : list string :=
  match s with
  | EmptyString => [EmptyString]
  | String c s' =>
      if Ascii.eqb c sep then EmptyString :: split sep s'
      else match split sep s' with
           | [] => [String c EmptyString]
           | w :: ws => String c w :: ws
           end
  end.

(** [Array.prototype.pop] read as a value: the last element, or [None]
    (JavaScript's [undefined]) on the empty array. *)
Definition pop (l : list string) : option string :=
  match rev l with
  | [] => None
  | x :: _ => Some x
  end.

(** [Array.prototype.includes] on strings. *)
Definition includes (l : list string) (x : string) : bool :=
  existsb (String.eqb x) l.

Fixpoint repeat_string (n : nat) (s : string) : string :=
  match n with
  | O => EmptyString
  | S k => s ++ repeat_string k s
  end.

End Str.

(** ** Regular expressions

    The patterns of the sources are sequences of literals, single-character
    classes, greedy or lazy repetitions of a class, and the anchors [^] and
    [$] under the flag [m]; each has at most one capture group, always
    around a repetition.  [match_here] is the backtracking matcher of
    ECMAScript on such sequences. *)

Module Regex.
Import Str.

Inductive atom : Type :=
| Lit (c : ascii)
| Cls (p : ascii -> bool)
| Star (greedy : bool) (p : ascii -> bool) (capture : bool)
| Bol
| Eol.

Definition pattern : Type := list atom.

(** [p+] is [p p*]. *)
Definition plus (p : ascii -> bool) : pattern := [Cls p; Star true p false].

Fixpoint lits (s : string) : pattern :=
  match s with
  | EmptyString => []
  | String c s' => Lit c :: lits s'
  end.

(** A match: the text of group 1 and the number of characters consumed. *)
Definition hit : Type := (string * nat)%type.

Definition consume (h : option hit) : option hit :=
  match h with
  | Some (g, n) => Some (g, S n)
  | None => None
  end.

Definition consume_into (capture : bool) (a : ascii) (h : option hit)
  : option hit :=
  match h with
  | Some (g, n) => Some (if capture then String a g else g, S n)
  | None => None
  end.

Definition at_bol (prev : option ascii) : bool :=
  match prev with
  | None => true
  | Some c => is_line_terminator c
  end.

Definition at_eol (s : string) : bool :=
  match s with
  | EmptyString => true
  | String c _ => is_line_terminator c
  end.

Definition first_of (x y : option hit) : option hit :=
  match x with
  | Some _ => x
  | None => y
  end.

(** [match_here pat prev s]: match [pat] at the head of [s], where [prev]
    is the character before it. *)
Fixpoint match_here (pat : pattern) (prev : option ascii) (s : string)
  {struct pat} : option hit :=
  match pat with
  | [] => Some (EmptyString, O)
  | Lit c :: pat' =>
      match s with
      | String a s' =>
          if Ascii.eqb a c then consume (match_here pat' (Some a) s')
          else None
      | EmptyString => None
      end
  | Cls p :: pat' =>
      match s with
      | String a s' =>
          if p a then consume (match_here pat' (Some a) s') else None
      | EmptyString => None
      end
  | Bol :: pat' => if at_bol prev then match_here pat' prev s else None
  | Eol :: pat' => if at_eol s then match_here pat' prev s else None
  | Star greedy p capture :: pat' =>
      (fix star (prev : option ascii) (s : string) {struct s}
         : option hit :=
         let stop := match_here pat' prev s in
         let more :=
           match s with
           | String a s' =>
               if p a then consume_into capture a (star (Some a) s')
               else None
           | EmptyString => None
           end in
         if greedy then first_of more stop else first_of stop more)
        prev s
  end.

(** The pieces a global scan cuts a string into. *)
Inductive piece : Type :=
| Raw (c : ascii)
| Hit (group1 : string).

(** The scan of [String.prototype.replace] and [String.prototype.match]
    with a [g] pattern: matches are taken leftmost first and do not
    overlap; [skip] counts the characters of the current match that are
    still to be passed.  After an empty match the scan moves on by one
    character. *)
Fixpoint scan (pat : pattern) (prev : option ascii) (skip : nat)
  (s : string) {struct s} : list piece :=
  match s with
  | EmptyString =>
      match skip with
      | O => match match_here pat prev EmptyString with
             | Some (g, _) => [Hit g]
             | None => []
             end
      | S _ => []
      end
  | String a s' =>
      match skip with
      | S k => scan pat (Some a) k s'
      | O =>
          match match_here pat prev s with
          | Some (g, S k) => Hit g :: scan pat (Some a) k s'
          | Some (g, O) => Hit g :: Raw a :: scan pat (Some a) O s'
          | None => Raw a :: scan pat (Some a) O s'
          end
      end
  end.

Definition is_hit (p : piece) : bool :=
  match p with
  | Hit _ => true
  | Raw _ => false
  end.

(** [(s.match(re) || []).length] for a [g] pattern. *)
Definition match_count (pat : pattern) (s : string) : nat :=
  List.length (filter is_hit (scan pat None O s)).

Fixpoint render (tpl : string -> string) (ps : list piece) : string :=
  match ps with
  | [] => EmptyString
  | Raw c :: ps' => String c (render tpl ps')
  | Hit g :: ps' => tpl g ++ render tpl ps'
  end.

(** [s.replace(re, template)] for a [g] pattern; [tpl] is the template as
    a function of [$1]. *)
Definition replace_all (pat : pattern) (tpl : string -> string)
  (s : string) : string :=
  render tpl (scan pat None O s).

End Regex.

(** ** Numbers

    The Numbers of the sources are non-negative counts and the quotients
    and products computed from them.  A Number is the rational it denotes,
    and an arithmetic operation returns the exact result rounded to the
    nearest binary64 value, ties to the even significand (IEEE-754
    roundTiesToEven, the rounding ECMAScript prescribes).  The exponent is
    not bounded here: the values of this development lie between 2^-53 and
    2^53, far from the subnormal and the overflow range. *)

Module Binary64.
Local Open Scope Q_scope.

Definition pow2 (k : Z) : Q := 2 ^ k.

(** The binary exponent of a positive rational: the [k] with
    [2^k <= r < 2^(k+1)]. *)
Definition ilog2 (r : Q) : Z :=
  let k0 := (Z.log2 (Qnum r) - Z.log2 (Zpos (Qden r)))%Z in
  if Qle_bool (pow2 k0) r then k0 else (k0 - 1)%Z.

(** The nearest integer, ties to even. *)
Definition round_half_even (x : Q) : Z :=
  let f := Qfloor x in
  match Qcompare (x - inject_Z f) (1 # 2) with
  | Lt => f
  | Gt => (f + 1)%Z
  | Eq => if Z.even f then f else (f + 1)%Z
  end.

(** The nearest value with a 53-bit significand, for [r > 0]. *)
Definition round_pos (r : Q) : Q :=
  let e := (ilog2 r - 52)%Z in
  inject_Z (round_half_even (r / pow2 e)) * pow2 e.

(** Rounding to binary64. *)
Definition fl (r : Q) : Q :=
  match Qcompare r 0 with
  | Eq => 0
  | Gt => round_pos r
  | Lt => - round_pos (- r)
  end.

(** [x / y] and [x * y] on Numbers. *)
Definition fdiv (x y : Q) : Q := fl (x / y).
Definition fmul (x y : Q) : Q := fl (x * y).

(** [Math.round]: the nearest integer, ties towards +infinity. *)
Definition Math_round (x : Q) : Z := Qfloor (x + (1 # 2)).

(** The Number of a length or a count. *)
Definition of_nat (n : nat) : Q := inject_Z (Z.of_nat n).

(** The rational a finite hardware float denotes, to compare the
    definitions above with the primitive binary64 operations. *)
Definition SF2Q (f : spec_float) : option Q :=
  match f with
  | S754_zero _ => Some 0
  | S754_finite s m e =>
      Some ((if s then - (1) else 1) * inject_Z (Zpos m) * pow2 e)
  | _ => None
  end.

Definition same_value (f : float) (q : Q) : bool :=
  match SF2Q (Prim2SF f) with
  | Some v => Qeq_bool v q
  | None => false
  end.

End Binary64.


(** ** Dashboard.js *)

Module Dashboard.
Import Str Regex Binary64.

(** [/def\s+\w+/g], [/class\s+\w+/g] and [/Docstring:/g]. *)
Definition re_function : pattern :=
  (lits "def" ++ plus is_space ++ plus is_word)%list.
Definition re_class : pattern :=
  (lits "class" ++ plus is_space ++ plus is_word)%list.
Definition re_docstring : pattern := lits "Docstring:".

Record Stats : Type := mkStats {
  totalFunctions : nat;
  documentedFunctions : nat;
  totalClasses : nat;
  documentedClasses : nat
}.

(** The two [useState] cells of the component. *)
Record State : Type := mkState {
  coverage : Z;
  stats : Stats
}.

Definition initial : State :=
  {| coverage := 75; stats := mkStats 0 0 0 0 |}.

(** The number of [Docstring:] markers of a documentation string. *)
Definition markerCount (docs : string) : nat :=
  match_count re_docstring docs.

(** [calculateCoverage]: both cells are overwritten. *)
Definition calculateCoverage (docs : string) : State :=
  let functions := match_count re_function docs in
  let classes := match_count re_class docs in
  let docstrings := match_count re_docstring docs in
  let totalItems := (functions + classes)%nat in
  let documentedItems := Nat.min docstrings totalItems in
  let calculatedCoverage :=
    if (0 <? totalItems)%nat
    then Math_round
           (fmul (fdiv (of_nat documentedItems) (of_nat totalItems)) 100)
    else 75%Z in
  {| coverage := calculatedCoverage;
     stats := {| totalFunctions := functions;
                 documentedFunctions := Nat.min docstrings functions;
                 totalClasses := classes;
                 documentedClasses := Nat.min docstrings classes |} |}.

(** The effect on [generatedDocs]: an empty string is falsy. *)
Definition onGeneratedDocs (st : State) (generatedDocs : string) : State :=
  match generatedDocs with
  | EmptyString => st
  | _ => calculateCoverage generatedDocs
  end.

(** The percentage in exact arithmetic: the integer nearest to
    [100 * documented / total], a half rounding up as [Math.round]
    does. *)
Definition exact_percentage (documented total : nat) : Z :=
  Math_round (100 * of_nat documented / of_nat total)%Q.

Definition newline : string := String (ascii_of_nat 10) EmptyString.

(** A documentation of forty functions, twenty-three of them with a
    [Docstring:] line. *)
Definition docs_23_of_40 : string :=
  repeat_string 23 ("def f(x)" ++ newline ++ "Docstring: text" ++ newline)
  ++ repeat_string 17 ("def g(y)" ++ newline).

End Dashboard.

(** ** JavaScript values

    The values the components receive come out of [JSON.parse]; a missing
    property reads as [undefined], which is [None] below.  How a Number
    prints ([Number::toString]) is a parameter of the development,
    [Number_toString]. *)

Module Js.
Import Str.

Inductive value : Type :=
| Null
| Bool (b : bool)
| Num (q : Q)
| Str (s : string)
| Arr (items : list value)
| Obj (props : list (string * value)).

(** A value or [undefined]. *)
Definition jsval : Type := option value.

Definition undefined : jsval := None.

(** [ToBoolean]. *)
Definition truthy (v : value) : bool :=
  match v with
  | Null => false
  | Bool b => b
  | Num q => negb (Qeq_bool q 0)
  | Str s => negb (String.eqb s EmptyString)
  | Arr _ => true
  | Obj _ => true
  end.

Definition truthy_opt (v : jsval) : bool :=
  match v with
  | Some x => truthy x
  | None => false
  end.

(** [a || b]. *)
Definition or_else (a b : jsval) : jsval :=
  if truthy_opt a then a else b.

(** What a computation can throw. *)
Inductive exn : Type :=
| TypeError (message : string)
| NetworkError (message : string).

Inductive result (A : Type) : Type :=
| Ok (a : A)
| Throw (e : exn).
Arguments Ok {A} a.
Arguments Throw {A} e.

Definition bind {A B : Type} (r : result A) (k : A -> result B)
  : result B :=
  match r with
  | Ok a => k a
  | Throw e => Throw e
  end.

Definition to_option {A : Type} (r : result A) : option A :=
  match r with
  | Ok a => Some a
  | Throw _ => None
  end.

Definition obind {A B : Type} (o : option A) (k : A -> option B)
  : option B :=
  match o with
  | Some a => k a
  | None => None
  end.

Fixpoint lookup (name : string) (props : list (string * value)) : jsval :=
  match props with
  | [] => None
  | (k, v) :: rest => if String.eqb k name then Some v else lookup name rest
  end.

(** The message of the TypeError of a property read on [null] or
    [undefined] (the wording is V8's). *)
Definition cannot_read (what name : string) : exn :=
  TypeError ("Cannot read properties of " ++ what ++ " (reading '"
             ++ name ++ "')").

(** [v.name], for the property names the components read ([type],
    [line], [message], [code], [error], [suggestions], ...): none of
    them is a property of a string, a Number, a boolean or an array. *)
Definition get (v : jsval) (name : string) : result jsval :=
  match v with
  | None => Throw (cannot_read "undefined" name)
  | Some Null => Throw (cannot_read "null" name)
  | Some (Obj props) => Ok (lookup name props)
  | Some _ => Ok None
  end.

(** [v?.name]. *)
Definition get_opt (v : jsval) (name : string) : jsval :=
  match v with
  | Some (Obj props) => lookup name props
  | _ => None
  end.

Definition bs : string := String (ascii_of_nat 92) EmptyString.

Definition hex_digit (n : nat) : string :=
  String (ascii_of_nat (if (n <? 10)%nat then 48 + n else 87 + n))
         EmptyString.

(** [QuoteJSONString] on one character. *)
Definition quote_char (c : ascii) : string :=
  let n := code c in
  if (n =? 34)%nat then bs ++ dq
  else if (n =? 92)%nat then bs ++ bs
  else if (n =? 8)%nat then bs ++ "b"
  else if (n =? 9)%nat then bs ++ "t"
  else if (n =? 10)%nat then bs ++ "n"
  else if (n =? 12)%nat then bs ++ "f"
  else if (n =? 13)%nat then bs ++ "r"
  else if (n <? 32)%nat
       then bs ++ "u00" ++ hex_digit (n / 16) ++ hex_digit (n mod 16)
  else String c EmptyString.

Fixpoint quote_body (s : string) : string :=
  match s with
  | EmptyString => EmptyString
  | String c s' => quote_char c ++ quote_body s'
  end.

Definition quote (s : string) : string := dq ++ quote_body s ++ dq.

Fixpoint join (sep : string) (l : list string) : string :=
  match l with
  | [] => EmptyString
  | [x] => x
  | x :: rest => x ++ sep ++ join sep rest
  end.

Section Printing.
Variable Number_toString : Q -> string.

(** [JSON.stringify] on a value that came out of [JSON.parse]. *)
Fixpoint JSON_stringify (v : value) : string :=
  match v with
  | Null => "null"
  | Bool true => "true"
  | Bool false => "false"
  | Num q => Number_toString q
  | Str s => quote s
  | Arr items => "[" ++ join "," (map JSON_stringify items) ++ "]"
  | Obj props =>
      "{" ++ join ","
               (map (fun kv => match kv with
                               | (k, x) => quote k ++ ":" ++ JSON_stringify x
                               end) props)
          ++ "}"
  end.

(** [ToString], as a template literal applies it. *)
Fixpoint ToString (v : value) : string :=
  match v with
  | Null => "null"
  | Bool true => "true"
  | Bool false => "false"
  | Num q => Number_toString q
  | Str s => s
  | Arr items =>
      join "," (map (fun x => match x with
                              | Null => EmptyString
                              | _ => ToString x
                              end) items)
  | Obj _ => "[object Object]"
  end.

Definition ToString_opt (v : jsval) : string :=
  match v with
  | Some x => ToString x
  | None => "undefined"
  end.

End Printing.

(** A printer for the integers, to run the definitions on examples:
    the decimal digits of the integer part. *)
Fixpoint digits (fuel n : nat) (acc : string) : string :=
  match fuel with
  | O => acc
  | S fuel' =>
      let acc' := String (ascii_of_nat (48 + n mod 10)) acc in
      if (n <? 10)%nat then acc' else digits fuel' (n / 10) acc'
  end.

Definition decimal_nat (n : nat) : string := digits (S n) n EmptyString.

Definition decimal (q : Q) : string :=
  let z := Qfloor q in
  if (z <? 0)%Z then "-" ++ decimal_nat (Z.to_nat (- z))
  else decimal_nat (Z.to_nat z).

End Js.

(** ** What a component renders *)

Module Dom.

Inductive node : Type :=
| El (tag className : string) (children : list node)
| Text (s : string)
| Svg (name : string)
| InnerHtml (html : string)
| Keyed (key : nat) (n : node).

Definition class_is (cls : string) (n : node) : bool :=
  match n with
  | El _ c _ => String.eqb c cls
  | _ => false
  end.

(** The elements of class [cls] in a tree, in document order. *)
Fixpoint by_class (cls : string) (n : node) : list node :=
  match n with
  | El _ _ children =>
      ((if class_is cls n then [n] else [])
         ++ flat_map (by_class cls) children)%list
  | Keyed _ n' => by_class cls n'
  | Text _ => []
  | Svg _ => []
  | InnerHtml _ => []
  end.

Definition has_class (cls : string) (n : node) : bool :=
  match by_class cls n with
  | [] => false
  | _ :: _ => true
  end.

Definition children_of (n : node) : list node :=
  match n with
  | El _ _ children => children
  | _ => []
  end.

Section Children.
Import Js.
Variable Number_toString : Q -> string.

(** A value in child position: [null], booleans and the empty string
    leave nothing, a Number and a string leave text, an array leaves
    what its elements leave, and React refuses an object ([None]). *)
Fixpoint child (v : value) : option (list node) :=
  match v with
  | Null => Some []
  | Bool _ => Some []
  | Num q => Some [Text (Number_toString q)]
  | Str EmptyString => Some []
  | Str s => Some [Text s]
  | Arr items =>
      (fix each (l : list value) : option (list node) :=
         match l with
         | [] => Some []
         | x :: rest =>
             match child x, each rest with
             | Some a, Some b => Some (a ++ b)%list
             | _, _ => None
             end
         end) items
  | Obj _ => None
  end.

(** [undefined] in child position leaves nothing. *)
Definition child_opt (v : jsval) : option (list node) :=
  match v with
  | Some x => child x
  | None => Some []
  end.

(** [{cond && <el/>}]: the element when [cond] is truthy, and [cond]
    itself in child position otherwise. *)
Definition and_then (cond : jsval) (el : option node)
  : option (list node) :=
  if truthy_opt cond then obind el (fun n => Some [n])
  else child_opt cond.

End Children.

End Dom.

(** ** Suggestions.js *)

Module Suggestions.
Import Str Js Dom.

(** The four icons of [getSuggestionIcon]. *)
Inductive icon : Type := IconWarning | IconError | IconInfo | IconCheck.

Definition icon_node (i : icon) : node :=
  match i with
  | IconWarning => Svg "warning"
  | IconError => Svg "error"
  | IconInfo => Svg "info"
  | IconCheck => Svg "check"
  end.

(** [x.toLowerCase()] on a value that is not [null] or [undefined]:
    only a string has the method. *)
Definition call_toLowerCase (v : value) : result string :=
  match v with
  | Str s => Ok (toLowerCase s)
  | _ => Throw (TypeError "toLowerCase is not a function")
  end.

(** [getSuggestionIcon]: [switch (type?.toLowerCase())]. *)
Definition getSuggestionIcon (type : jsval) : result icon :=
  match type with
  | None => Ok IconCheck
  | Some Null => Ok IconCheck
  | Some v =>
      bind (call_toLowerCase v) (fun t =>
        if String.eqb t "warning" then Ok IconWarning
        else if String.eqb t "error" then Ok IconError
        else if String.eqb t "info" then Ok IconInfo
        else Ok IconCheck)
  end.

Section Component.
Variable Number_toString : Q -> string.

(** [formatSuggestion]. *)
Definition formatSuggestion (suggestion : jsval) : result jsval :=
  match suggestion with
  | Some (Str s) => Ok (Some (Str s))
  | _ =>
      bind (get suggestion "message") (fun message =>
        if truthy_opt message then Ok message
        else match suggestion with
             | Some v => Ok (Some (Str (JSON_stringify Number_toString v)))
             | None => Ok None
             end)
  end.

(** One [suggestion-item] of the list; [None] when the render throws. *)
Definition item (index : nat) (suggestion : value) : option node :=
  obind (to_option (get (Some suggestion) "type")) (fun type =>
  obind (to_option
           (getSuggestionIcon (or_else type (Some (Str "suggestion")))))
        (fun ic =>
  obind (to_option (get (Some suggestion) "line")) (fun line =>
  obind (and_then Number_toString line
           (obind (child_opt Number_toString line) (fun c =>
              Some (El "span" "suggestion-line" (Text "Line " :: c)))))
        (fun lineLabel =>
  obind (and_then Number_toString type
           (match type with
            | Some t =>
                obind (to_option (call_toLowerCase t)) (fun lower =>
                obind (child Number_toString t) (fun c =>
                  Some (El "span" ("suggestion-type " ++ lower) c)))
            | None => None
            end))
        (fun typeLabel =>
  obind (to_option (formatSuggestion (Some suggestion))) (fun text =>
  obind (child_opt Number_toString text) (fun textNodes =>
  obind (to_option (get (Some suggestion) "code")) (fun code =>
  obind (and_then Number_toString code
           (obind (child_opt Number_toString code) (fun c =>
              Some (El "div" "suggestion-code" [El "code" "" c]))))
        (fun codeBlock =>
  Some (Keyed index
    (El "div" "suggestion-item"
       [El "div" "suggestion-header"
          [El "div" "suggestion-icon" [icon_node ic];
           El "div" "suggestion-meta" (lineLabel ++ typeLabel)%list];
        El "div" "suggestion-content"
          (El "p" "suggestion-message" textNodes :: codeBlock)])))))))))))
  .

(** [suggestions.map((suggestion, index) => ...)]. *)
Fixpoint items (index : nat) (suggestions : list value)
  : option (list node) :=
  match suggestions with
  | [] => Some []
  | s :: rest =>
      match item index s, items (S index) rest with
      | Some n, Some ns => Some (n :: ns)
      | _, _ => None
      end
  end.

Definition getDefaultContent : node :=
  El "div" "default-content"
    [El "div" "default-icon" [Svg "check-circle"];
     El "h3" "" [Text "No Suggestions Yet"];
     El "p" ""
       [Text "Upload a code file to get intelligent refactoring suggestions"]].

Definition loadingSkeleton : node :=
  El "div" "loading-skeleton"
    [El "div" "skeleton-line title" [];
     El "div" "skeleton-line" [];
     El "div" "skeleton-line short" [];
     El "div" "skeleton-line" [];
     El "div" "skeleton-line medium" []].

(** The component, for an array [suggestions]; the prop [language] is
    not read. *)
Definition Suggestions (suggestions : list value) (isLoading : bool)
  : option node :=
  let n := List.length suggestions in
  let count :=
    if (0 <? n)%nat
    then [El "div" "suggestions-count"
            [Text (Number_toString (inject_Z (Z.of_nat n)));
             Text " ";
             Text (if (n =? 1)%nat then "suggestion" else "suggestions")]]
    else [] in
  obind
    (if isLoading then Some loadingSkeleton
     else if (0 <? n)%nat
          then obind (items 0 suggestions) (fun l =>
                 Some (El "div" "suggestions-list" l))
          else Some getDefaultContent)
    (fun content =>
       Some (El "div" "suggestions"
               [El "div" "section-header"
                  (El "div" "section-title-with-icon"
                     [Svg "sun"; El "h2" "" [Text "Suggestions"]]
                   :: count);
                El "div" "suggestions-content" [content]])).

End Component.

(** *** The Suggestion record of the data model *)

Inductive Severity : Type := warning | error | info | style.

Definition severity_name (t : Severity) : string :=
  match t with
  | warning => "warning"
  | error => "error"
  | info => "info"
  | style => "style"
  end.

Record Suggestion : Type := mkSuggestion {
  type : Severity;
  line : option nat;
  message : string;
  code : option string
}.

(** The object a Suggestion arrives as: an absent field is left out. *)
Definition to_json (s : Suggestion) : value :=
  Obj ([("type", Str (severity_name (type s)))]
       ++ match line s with
          | Some n => [("line", Num (inject_Z (Z.of_nat n)))]
          | None => []
          end
       ++ [("message", Str (message s))]
       ++ match code s with
          | Some c => [("code", Str c)]
          | None => []
          end)%list.

Definition is_string (v : jsval) : Prop := exists s, v = Some (Str s).

(** A Suggestion whose code excerpt is present and empty. *)
Definition empty_excerpt : Suggestion :=
  {| type := info; line := None; message := "Function f has no docstring";
     code := Some EmptyString |}.

End Suggestions.

(** ** Documentation.js *)

Module Documentation.
Import Str Regex Js Dom.

(** [<name class="cls">$1</name>]. *)
Definition wrap (name cls : string) (g : string) : string :=
  "<" ++ name ++ " class=" ++ dq ++ cls ++ dq ++ ">" ++ g
  ++ "</" ++ name ++ ">".

(** [/^# (.*$)/gm] and its like: a prefix at the start of a line and
    the rest of the line as group 1. *)
Definition re_line (prefix : string) : pattern :=
  ([Bol] ++ lits prefix ++ [Star true is_dot true; Eol])%list.

(** [/\*\*(.*?)\*\*/g] and its like: the shortest text between two
    delimiters on one line. *)
Definition re_between (delim : string) : pattern :=
  (lits delim ++ [Star false is_dot true] ++ lits delim)%list.

Definition re_newline : pattern := [Lit (ascii_of_nat 10)].

(** The bullet U+2022 of the list-item template, in UTF-8. *)
Definition bullet : string :=
  String (ascii_of_nat 226)
    (String (ascii_of_nat 128) (String (ascii_of_nat 162) EmptyString)).

(** The eight replacements of [formatContent], in order. *)
Definition replacements (text : string) : string :=
  let t1 := replace_all (re_line "# ") (wrap "h1" "doc-h1") text in
  let t2 := replace_all (re_line "## ") (wrap "h2" "doc-h2") t1 in
  let t3 := replace_all (re_line "### ") (wrap "h3" "doc-h3") t2 in
  let t4 := replace_all (re_between "**") (wrap "strong" "doc-strong") t3 in
  let t5 := replace_all (re_between "*") (wrap "em" "doc-em") t4 in
  let t6 := replace_all (re_between "`") (wrap "code" "doc-code") t5 in
  let t7 := replace_all (re_line "- ")
              (fun g => wrap "div" "doc-list-item" (bullet ++ " " ++ g))
              t6 in
  replace_all re_newline (fun _ => "<br />") t7.

(** [formatContent]: a falsy text gives the empty string, and only a
    string has [replace]. *)
Definition formatContent (text : jsval) : result string :=
  if truthy_opt text
  then match text with
       | Some (Str s) => Ok (replacements s)
       | _ => Throw (TypeError "text.replace is not a function")
       end
  else Ok EmptyString.

Record Props : Type := mkProps {
  content : jsval;
  language : jsval;
  filename : jsval;
  isLoading : bool
}.

(** The markup of [getDefaultContent], kept by its heading. *)
Definition getDefaultContent : string :=
  "<div class=" ++ dq ++ "default-content" ++ dq
  ++ "><h3>No Documentation Yet</h3>"
  ++ "<p>Upload a code file to generate documentation automatically</p>"
  ++ "</div>".

Section Component.
Variable Number_toString : Q -> string.

Definition exportButton (kind label : string) (content : jsval) : node :=
  El "button"
     ("export-btn " ++ kind ++ " "
      ++ (if truthy_opt content then EmptyString else "disabled"))
     [Svg kind; Text label].

(** The [documentation-content] block: the skeleton while loading,
    otherwise the HTML set through [dangerouslySetInnerHTML]. *)
Definition documentationContent (p : Props) : option node :=
  if isLoading p
  then Some (El "div" "documentation-content"
               [El "div" "loading-skeleton" []])
  else obind
         (if truthy_opt (content p)
          then to_option (formatContent (content p))
          else Some getDefaultContent)
         (fun html =>
            Some (El "div" "documentation-content"
                    [El "div" "documentation-text" [InnerHtml html]])).

(** The component; [None] when the render throws. *)
Definition Documentation (p : Props) : option node :=
  obind (and_then Number_toString (language p)
           (obind (child_opt Number_toString (language p)) (fun c =>
              Some (El "div" "language-badge" c))))
        (fun badge =>
  obind (documentationContent p) (fun body =>
  Some (El "div" "documentation"
          [El "div" "section-header"
             (El "div" "section-title-with-icon"
                [Svg "file"; El "h2" "" [Text "Documentation"]]
              :: badge);
           body;
           El "div" "export-buttons"
             [exportButton "markdown" "Markdown" (content p);
              exportButton "html" "HTML" (content p)]]))).

End Component.

(** A documentation text with every construct [formatContent] knows. *)
Definition sample : string :=
  "# parser.py" ++ Dashboard.newline
  ++ "## Functions" ++ Dashboard.newline
  ++ "- **parse** takes `text` and *returns* a tree".

End Documentation.

(** ** App.js *)

Module App.
Import Str Js.

(** A [File]: its name, its MIME type and its text. *)
Record File : Type := mkFile {
  name : string;
  mime : string;
  text : string
}.

(** The [useState] cells of [App]. *)
Record State : Type := mkState {
  isDarkMode : bool;
  uploadedFile : option File;
  generatedDocs : jsval;
  suggestions : jsval;
  language : jsval;
  isLoading : bool;
  refreshRecentFiles : nat
}.

Definition initial : State :=
  {| isDarkMode := true; uploadedFile := None;
     generatedDocs := Some (Str EmptyString);
     suggestions := Some (Arr []);
     language := Some (Str EmptyString);
     isLoading := false; refreshRecentFiles := 0 |}.

Definition setUploadedFile (f : File) (st : State) : State :=
  mkState (isDarkMode st) (Some f) (generatedDocs st) (suggestions st)
          (language st) (isLoading st) (refreshRecentFiles st).

Definition setGeneratedDocs (docs : jsval) (st : State) : State :=
  mkState (isDarkMode st) (uploadedFile st) docs (suggestions st)
          (language st) (isLoading st) (refreshRecentFiles st).

Definition setSuggestions (v : jsval) (st : State) : State :=
  mkState (isDarkMode st) (uploadedFile st) (generatedDocs st) v
          (language st) (isLoading st) (refreshRecentFiles st).

Definition setLanguage (lang : jsval) (st : State) : State :=
  mkState (isDarkMode st) (uploadedFile st) (generatedDocs st)
          (suggestions st) lang (isLoading st) (refreshRecentFiles st).

Definition setIsLoading (b : bool) (st : State) : State :=
  mkState (isDarkMode st) (uploadedFile st) (generatedDocs st)
          (suggestions st) (language st) b (refreshRecentFiles st).

Definition setRefreshRecentFiles (f : nat -> nat) (st : State) : State :=
  mkState (isDarkMode st) (uploadedFile st) (generatedDocs st)
          (suggestions st) (language st) (isLoading st)
          (f (refreshRecentFiles st)).

(** What [await fetch(...)] followed by [await response.json()] comes
    to: the fetch rejects, the body is not JSON, or the parsed body
    with [response.ok]. *)
Inductive fetched : Type :=
| FetchRejected
| BodyRejected (ok : bool)
| Body (ok : bool) (data : value).

(** [generateSuggestions], given the answer to [POST /suggest/]. *)
Definition generateSuggestions (answer : fetched) (st : State) : State :=
  match answer with
  | Body _ data =>
      match get (Some data) "suggestions" with
      | Ok found =>
          if truthy_opt found then setSuggestions found st else st
      | Throw _ => setSuggestions (Some (Arr [])) st
      end
  | _ => setSuggestions (Some (Arr [])) st
  end.

(** [handleFileUpload], given the answer to the suggestion request it
    makes. *)
Definition handleFileUpload (answer : fetched)
  (file : File) (docs lang : jsval) (st : State) : State :=
  let st1 := setUploadedFile file st in
  let st2 := setGeneratedDocs docs st1 in
  let st3 := setLanguage lang st2 in
  let st4 := generateSuggestions answer st3 in
  setRefreshRecentFiles (fun prev => prev + 1)%nat st4.

Definition handleLoading (loading : bool) (st : State) : State :=
  setIsLoading loading st.

(** A Suggestion left from an earlier file. *)
Definition earlier : value :=
  Obj [("type", Str "warning"); ("line", Num 3);
       ("message", Str "Function parse is too long")].

Definition showing_earlier : State :=
  setSuggestions (Some (Arr [earlier])) initial.

(** A second file, and the documentation generated for it. *)
Definition second : File :=
  {| name := "util.py"; mime := "text/x-python"; text := "x = 1" |}.

Definition second_docs : jsval := Some (Str "# util.py").

(** A body without a [suggestions] field. *)
Definition no_suggestions_field : fetched := Body true (Obj []).

End App.

(** ** CodeUpload.js *)

Module CodeUpload.
Import Str Js.

(** The error axios rejects with: [code], [response] (its [data] and
    [statusText]), whether [request] is set, and [message]. *)
Record AxiosError : Type := mkAxiosError {
  err_code : option string;
  err_response : option (jsval * string);
  err_request : bool;
  err_message : string
}.

(** What [await axios.post(...)] comes to: a response with its [data],
    or a rejection. *)
Inductive posted : Type :=
| Resolved (data : jsval)
| Rejected (e : AxiosError).


Section Component.
Variable Number_toString : Q -> string.
Variable AppState : Type.
Variable onFileUpload : App.File -> jsval -> jsval -> AppState -> AppState.
Variable onLoading : bool -> AppState -> AppState.

(** The text [setError] receives in the [catch] block. *)
Definition rejection (e : AxiosError) : string :=
  match err_code e with
  | Some "ERR_NETWORK" =>
      "Cannot connect to server. Please ensure the backend server is running on http://localhost:8000"
  | _ =>
      match err_response e with
      | Some (data, statusText) =>
          "Server error: "
          ++ ToString_opt Number_toString
               (or_else (get_opt data "message") (Some (Str statusText)))
      | None =>
          if err_request e
          then "No response from server. Please check if the backend is running and CORS is configured."
          else "Upload failed: " ++ err_message e
      end
  end.

Definition exn_message (e : exn) : string :=
  match e with
  | TypeError m => m
  | NetworkError m => m
  end.

(** [handleFiles]: the [error] cell of the component and the state of
    the parent, before and after. *)
Definition handleFiles (files : list App.File) (answer : posted)
  (st : jsval * AppState) : jsval * AppState :=
  match files with
  | [] => st
  | file :: _ =>
      let app1 := onLoading true (snd st) in
      let after :=
        match answer with
        | Resolved data =>
            match get data "error" with
            | Ok flag =>
                if truthy_opt flag
                then match get data "message" with
                     | Ok message =>
                         (or_else message
                            (Some (Str "Error processing file")), app1)
                     | Throw e =>
                         (Some (Str ("Upload failed: " ++ exn_message e)),
                          app1)
                     end
                else
                  match get data "markdown_content", get data "language"
                  with
                  | Ok docs, Ok lang =>
                      (Some (Str EmptyString),
                       onFileUpload file docs lang app1)
                  | _, _ => (Some (Str EmptyString), app1)
                  end
            | Throw e =>
                (Some (Str ("Upload failed: " ++ exn_message e)), app1)
            end
        | Rejected e => (Some (Str (rejection e)), app1)
        end in
      (fst after, onLoading false (snd after))
  end.

End Component.

(** An answer that reports an error. *)
Definition unsupported_answer : posted :=
  Resolved (Some (Obj [("error", Bool true);
                       ("message", Str "Unsupported file type: .txt")])).

End CodeUpload.

(** ** RecentFiles.js *)

Module RecentFiles.
Import Str Js.

Definition API_BASE_URL : string := "http://localhost:8000".

(** An entry of the recent-files list. *)
Record Entry : Type := mkEntry {
  file_id : string;
  filename : string
}.

(** What the handler does that can be seen from outside, in order. *)
Inductive action : Type :=
| Fetch (method url : string)
| Download (name : string)
| ConsoleError (label : string)
| Alert (text : string)
| OnFileSelect (file : App.File) (docs lang : jsval).

(** The answers of the server to the three requests the handler can
    make. *)
Record Network : Type := mkNetwork {
  download : option bool;
  cached : App.fetched;
  parsed : App.fetched
}.

(** The extensions [handleFileClick] regenerates documentation for. *)
Definition supported : list string := ["py"; "java"; "js"; "jsx"].

(** [filename.split('.').pop().toLowerCase()]. *)
Definition extension (filename : string) : option string :=
  option_map toLowerCase (pop (split "." filename)).

(** [getFileType]. *)
Definition getFileType (filename : string) : option string :=
  option_map
    (fun ext =>
       if String.eqb ext "py" then "text/x-python"
       else if String.eqb ext "java" then "text/x-java"
       else if String.eqb ext "js" then "text/javascript"
       else if String.eqb ext "jsx" then "text/javascript"
       else "text/plain")
    (extension filename).

(** What the outer [catch] does. *)
Definition loadFailed : list action :=
  [ConsoleError "Error loading file:";
   Alert "Failed to load file. Please try again."].

(** What the inner [catch] does. *)
Definition regenerateFailed : list action :=
  [ConsoleError "Error regenerating documentation:";
   Alert "Failed to regenerate documentation. Please check if the backend server is running."].

Definition unsupportedMessage (fileExtension : string) : string :=
  "File type ." ++ fileExtension
  ++ " is not supported for documentation generation.".

Section Component.
Variable Number_toString : Q -> string.

(** The inner [try] block: the request to [/parse-code/]. *)
Definition regenerate (fileObject : App.File) (net : Network)
  : list action :=
  Fetch "POST" (API_BASE_URL ++ "/parse-code/")
  :: match parsed net with
     | App.FetchRejected => regenerateFailed
     | App.BodyRejected _ => regenerateFailed
     | App.Body ok parseData =>
         let failed :=
           match get (Some parseData) "message" with
           | Ok _ =>
               [ConsoleError "Failed to regenerate documentation:";
                Alert "Failed to regenerate documentation. Please try again."]
           | Throw _ => regenerateFailed
           end in
         if ok
         then match get (Some parseData) "error" with
              | Ok flag =>
                  if truthy_opt flag then failed
                  else match get (Some parseData) "markdown_content",
                             get (Some parseData) "language" with
                       | Ok docs, Ok lang =>
                           [OnFileSelect fileObject docs lang]
                       | _, _ => regenerateFailed
                       end
              | Throw _ => regenerateFailed
              end
         else failed
     end.

(** [handleFileClick]. *)
Definition handleFileClick (file : Entry) (net : Network)
  : list action :=
  match extension (filename file) with
  | None => loadFailed
  | Some fileExtension =>
      if String.eqb fileExtension "md" then
        Fetch "GET"
              (API_BASE_URL ++ "/files/" ++ file_id file ++ "/download")
        :: match download net with
           | None => loadFailed
           | Some true => [Download (filename file)]
           | Some false =>
               [ConsoleError "Failed to download markdown file"]
           end
      else if includes supported fileExtension then
        Fetch "GET" (API_BASE_URL ++ "/files/" ++ file_id file)
        :: match cached net with
           | App.FetchRejected => loadFailed
           | App.BodyRejected _ => loadFailed
           | App.Body false _ => []
           | App.Body true data =>
               match get (Some data) "content",
                     get (Some data) "file_content",
                     get (Some data) "filename" with
               | Ok c, Ok fc, Ok (Some (Str dataName)) =>
                   match getFileType dataName with
                   | Some type =>
                       let fileContent :=
                         or_else (or_else c fc)
                                 (Some (Str EmptyString)) in
                       regenerate
                         (App.mkFile dataName type
                            (ToString_opt Number_toString fileContent))
                         net
                   | None => loadFailed
                   end
               | _, _, _ => loadFailed
               end
           end
      else [Alert (unsupportedMessage fileExtension)]
  end.

End Component.

(** Whether an action is a request to the parse endpoint. *)
Definition is_parse_request (a : action) : bool :=
  match a with
  | Fetch _ url => String.eqb url (API_BASE_URL ++ "/parse-code/")
  | _ => false
  end.

Definition is_request (a : action) : bool :=
  match a with
  | Fetch _ _ => true
  | _ => false
  end.



End RecentFiles.

(** ** The Suggestion Engine

    The engine runs in the backend ([backend/suggestor/]), which is not
    among the sources; what follows is section 3 and section 4.4 of the
    specification. *)

Module Engine.
Import Suggestions.

(** Modelled from the spec: the Parameter of section 3 (name, optional
    type annotation, optional default-value text); the backend's data
    models are missing from the sources. *)
Record Param : Type := mkParam {
  param_name : string;
  param_type : option string;
  param_default : option string
}.

(** Modelled from the spec: the [FunctionSymbol] of section 3, with the
    presence of a doc comment as the one signal of documentation; the
    backend's data models are missing from the sources. *)
Record FunctionSymbol : Type := mkFunctionSymbol {
  fn_name : string;
  fn_start_line : nat;
  fn_end_line : nat;
  fn_parameters : list Param;
  fn_return_type : option string;
  fn_doc_comment : option string;
  fn_body_line_count : nat;
  fn_is_method : bool
}.

(** Modelled from the spec: the [ClassSymbol] of section 3; the
    backend's data models are missing from the sources. *)
Record ClassSymbol : Type := mkClassSymbol {
  cls_name : string;
  cls_start_line : nat;
  cls_end_line : nat;
  cls_doc_comment : option string;
  cls_methods : list FunctionSymbol;
  cls_base_names : list string
}.

(** Modelled from the spec: the [SourceUnit] of section 3 (the language
    tag is not read by the rules below); the backend's data models are
    missing from the sources. *)
Record SourceUnit : Type := mkSourceUnit {
  imports : list string;
  classes : list ClassSymbol;
  functions : list FunctionSymbol
}.

(** Modelled from the spec: a rule of section 4.4 and section 9, a pure
    function from the unit to its findings; the backend's suggestor is
    missing from the sources. *)
Definition rule : Type := SourceUnit -> list Suggestion.

(** Modelled from the spec: the severity rank of section 3,
    error > warning > info > style; the backend's suggestor is missing
    from the sources. *)
Definition rank (t : Severity) : nat :=
  match t with
  | error => 3
  | warning => 2
  | info => 1
  | style => 0
  end.

(** Modelled from the spec: the place of a suggestion in source-line
    order.  The specification does not place a suggestion without a
    line; here it comes before every line.  The backend's suggestor is
    missing from the sources. *)
Definition line_key (s : Suggestion) : nat :=
  match line s with
  | Some n => S n
  | None => 0
  end.

(** Modelled from the spec: the ordering rule of section 3, source-line
    order with ties broken by severity rank, the higher rank first; the
    backend's suggestor is missing from the sources. *)
Definition before (a b : Suggestion) : bool :=
  (line_key a <? line_key b)%nat
  || ((line_key a =? line_key b)%nat && (rank (type b) <=? rank (type a))%nat).

(** Modelled from the spec: the sort step of section 4.4, as a stable
    insertion sort; the backend's suggestor is missing from the
    sources. *)
Fixpoint insert (s : Suggestion) (l : list Suggestion) : list Suggestion :=
  match l with
  | [] => [s]
  | x :: rest => if before s x then s :: l else x :: insert s rest
  end.

(** Modelled from the spec: the sort step of section 4.4; the backend's
    suggestor is missing from the sources. *)
Fixpoint sort (l : list Suggestion) : list Suggestion :=
  match l with
  | [] => []
  | x :: rest => insert x (sort rest)
  end.

(** Modelled from the spec: [analyze] of section 4.4, every rule
    evaluated on its own and the results merged and sorted once; the
    backend's suggestor is missing from the sources. *)
Definition analyze (rules : list rule) (unit : SourceUnit)
  : list Suggestion :=
  sort (flat_map (fun r => r unit) rules).

Definition all_functions (unit : SourceUnit) : list FunctionSymbol :=
  (flat_map cls_methods (classes unit) ++ functions unit)%list.

(** Modelled from the spec: the rule "missing documentation" of section
    4.4 ([info], at the start line of the symbol); the backend's
    suggestor is missing from the sources. *)
Definition missing_documentation : rule := fun unit =>
  (flat_map (fun c =>
     match cls_doc_comment c with
     | Some _ => []
     | None => [mkSuggestion info (Some (cls_start_line c))
                  ("Class " ++ cls_name c ++ " has no documentation") None]
     end) (classes unit)
   ++ flat_map (fun f =>
     match fn_doc_comment f with
     | Some _ => []
     | None => [mkSuggestion info (Some (fn_start_line f))
                  ("Function " ++ fn_name f ++ " has no documentation") None]
     end) (all_functions unit))%list.

(** Modelled from the spec: the rule "oversized function" of section
    4.4 (threshold 50, [warning]); the backend's suggestor is missing
    from the sources. *)
Definition oversized_function : rule := fun unit =>
  flat_map (fun f =>
    if (50 <? fn_body_line_count f)%nat
    then [mkSuggestion warning (Some (fn_start_line f))
            ("Function " ++ fn_name f ++ " is long; consider splitting it")
            None]
    else []) (all_functions unit).

(** Modelled from the spec: the rule "excess parameters" of section 4.4
    (threshold 5, [warning]); the backend's suggestor is missing from
    the sources. *)
Definition excess_parameters : rule := fun unit =>
  flat_map (fun f =>
    if (5 <? List.length (fn_parameters f))%nat
    then [mkSuggestion warning (Some (fn_start_line f))
            ("Function " ++ fn_name f ++ " has too many parameters") None]
    else []) (all_functions unit).

(** The order the claim asks of a list: [a] may come before [b]. *)
Definition in_order (a b : Suggestion) : Prop :=
  (line_key a <= line_key b)%nat
  /\ (line_key a = line_key b -> (rank (type b) <= rank (type a))%nat).

End Engine.


(** ** Preview.js *)

Module Preview.
Import Str Regex Js.

(** [<name>$1</name>]. *)
Definition wrap (name : string) (g : string) : string :=
  "<" ++ name ++ ">" ++ g ++ "</" ++ name ++ ">".

(** The seven replacements of [formatContent] in the preview, in order. *)
Definition replacements (text : string) : string :=
  let t1 := replace_all (Documentation.re_line "# ") (wrap "h1") text in
  let t2 := replace_all (Documentation.re_line "## ") (wrap "h2") t1 in
  let t3 := replace_all (Documentation.re_line "### ") (wrap "h3") t2 in
  let t4 := replace_all (Documentation.re_between "**") (wrap "strong") t3 in
  let t5 := replace_all (Documentation.re_between "*") (wrap "em") t4 in
  let t6 := replace_all (Documentation.re_between "`") (wrap "code") t5 in
  replace_all Documentation.re_newline (fun _ => "<br />") t6.

(** [formatContent] of the preview. *)
Definition formatContent (text : jsval) : result string :=
  if truthy_opt text
  then match text with
       | Some (Str s) => Ok (replacements s)
       | _ => Throw (TypeError "text.replace is not a function")
       end
  else Ok EmptyString.

End Preview.

(** ** Text predicates *)

Module Text.
Import Str.

(** Whether a character occurs in a string. *)
Fixpoint occurs (c : ascii) (s : string) : bool :=
  match s with
  | EmptyString => false
  | String a s' => Ascii.eqb a c || occurs c s'
  end.

Definition LF : ascii := ascii_of_nat 10.

(** The characters the patterns of [formatContent] start with. *)
Definition is_markup (c : ascii) : bool :=
  Ascii.eqb c "#" || Ascii.eqb c "*" || Ascii.eqb c "`" || Ascii.eqb c "-"
  || Ascii.eqb c LF.

(** A text without any of them. *)
Fixpoint plain (s : string) : bool :=
  match s with
  | EmptyString => true
  | String a s' => negb (is_markup a) && plain s'
  end.

Fixpoint raws (s : string) : list Regex.piece :=
  match s with
  | EmptyString => []
  | String a s' => Regex.Raw a :: raws s'
  end.

(** A text of ASCII characters only.  On such a text the character
    classes, the line terminators and the case mapping of [Str] are
    those of ECMAScript without exception: no U+2028 or U+2029, no
    letter outside A-Z that has a lower case, no final sigma. *)
Fixpoint ascii_only (s : string) : bool :=
  match s with
  | EmptyString => true
  | String a s' => (code a <? 128)%nat && ascii_only s'
  end.

(** A pattern that starts, possibly after [^], with the literal [c]. *)
Definition starts_with (c : ascii) (pat : Regex.pattern) : Prop :=
  match pat with
  | Regex.Lit c' :: _ => c' = c
  | Regex.Bol :: Regex.Lit c' :: _ => c' = c
  | _ => False
  end.

End Text.

(** ** The export names of Documentation.js and ExportButtons.js *)

Module ExportNames.
Import Str Js.

(** [filename?.split('.')[0]] for a file name or [undefined]. *)
Definition stem (filename : option string) : option string :=
  match filename with
  | Some name => hd_error (split "." name)
  | None => None
  end.

(** [filename?.split('.')[0] || 'documentation']. *)
Definition base (filename : option string) : string :=
  match stem filename with
  | Some EmptyString => "documentation"
  | Some s => s
  | None => "documentation"
  end.

(** The [download] attribute of [exportAsMarkdown] and of [exportAsHTML]. *)
Definition markdownName (filename : option string) : string :=
  base filename ++ ".md".
Definition htmlName (filename : option string) : string :=
  base filename ++ ".html".

(** A download: the name of the file and the text of the blob. *)
Record blob : Type := mkBlob {
  download : string;
  body : string
}.

(** [exportAsMarkdown]: nothing without documentation. *)
Definition exportAsMarkdown (content : string) (filename : option string)
  : option blob :=
  match content with
  | EmptyString => None
  | _ => Some (mkBlob (markdownName filename) content)
  end.

End ExportNames.

(** ** The recent-files list of RecentFiles.js *)

Module RecentList.
Import Str Js.

(** The [useState] cells of [RecentFiles]. *)
Record State : Type := mkState {
  recentFiles : jsval;
  isLoading : bool;
  error : string
}.

Definition initial : State :=
  {| recentFiles := Some (Arr []); isLoading := false;
     error := EmptyString |}.

(** [fetchRecentFiles], given the answer to [GET /files/recent]. *)
Definition fetchRecentFiles (answer : App.fetched) (st : State) : State :=
  let unreachable := "Unable to connect to server" in
  match answer with
  | App.FetchRejected => mkState (recentFiles st) false unreachable
  | App.BodyRejected _ => mkState (recentFiles st) false unreachable
  | App.Body true data =>
      match get (Some data) "recent_files" with
      | Ok found =>
          mkState (or_else found (Some (Arr []))) false EmptyString
      | Throw _ => mkState (recentFiles st) false unreachable
      end
  | App.Body false _ =>
      mkState (recentFiles st) false "Failed to fetch recent files"
  end.

End RecentList.


(** ** Sample documentation strings *)

Module Samples.
Import Str Dashboard.

(** One function with its marker. *)
Definition documented_function : string :=
  "def parse(text)" ++ newline ++ "Docstring: Parses the text." ++ newline.

(** The same function without it. *)
Definition bare_function : string := "def parse(text)" ++ newline.

(** A class and a function, and one marker. *)
Definition class_and_function : string :=
  "class Parser" ++ newline ++ "Docstring: A parser." ++ newline
  ++ "def parse(text)" ++ newline.

End Samples.


(** ** Kinds of actions *)

Module Actions.
Import RecentFiles.

Definition is_alert (a : action) : bool :=
  match a with
  | Alert _ => true
  | _ => false
  end.

Definition is_select (a : action) : bool :=
  match a with
  | OnFileSelect _ _ _ => true
  | _ => false
  end.

Definition is_download (a : action) : bool :=
  match a with
  | Download _ => true
  | _ => false
  end.

Definition count (p : action -> bool) (l : list action) : nat :=
  List.length (filter p l).

(** An entry for a Python file, and a server that serves it and answers
    the parse request with documentation. *)
Definition script : Entry := {| file_id := "3"; filename := "Tool.PY" |}.

Definition serving : Network :=
  {| download := None;
     cached := App.Body true
                 (Js.Obj [("content", Js.Str "x = 1");
                          ("filename", Js.Str "Tool.PY")]);
     parsed := App.Body true
                 (Js.Obj [("markdown_content", Js.Str "# Tool");
                          ("language", Js.Str "python")]) |}.

End Actions.


(** ** Lines *)

Module Lines.
Import Str.

(** A text without line terminator. *)
Fixpoint single_line (s : string) : bool :=
  match s with
  | EmptyString => true
  | String a s' => is_dot a && single_line s'
  end.

(** The character before a position that is not the start of a line. *)
Definition inside_line (prev : option ascii) : Prop :=
  match prev with
  | Some c => is_line_terminator c = false
  | None => False
  end.

End Lines.



(** ** File names and the accept list *)

Module Accept.
Import Str Js RecentFiles.






(** A suggestion whose message is a Number. *)
Definition numeric_message : value := Obj [("message", Num 42)].

End Accept.



(** ** File sizes: [formatFileSize] of RecentFiles.js *)

Module FileSize.
Import Str Js Binary64 Reals Qreals.

(** [k] and [sizes]. *)
Definition k : Z := 1024.
Definition sizes : list string := ["B"; "KB"; "MB"].

(** [sizes[i]] for an integer [i]: [undefined] outside the array. *)
Definition sizes_at (i : Z) : option string :=
  if (i <? 0)%Z then None else nth_error sizes (Z.to_nat i).

Definition Math_floor (x : Q) : Z := Qfloor x.

(** [x.toFixed(1)], as the number of tenths its digits denote: the
    integer [n] with [n / 10] nearest to [x], the larger one of two, and
    the same for [- x] under a sign when [x < 0]. *)
Definition toFixed1 (x : Q) : Z :=
  if Qle_bool 0 x then Qfloor (x * 10 + (1 # 2))%Q
  else (- Qfloor (- x * 10 + (1 # 2))%Q)%Z.

(** [parseFloat] of these digits: the Number nearest to [n / 10]. *)
Definition parseFloat_tenths (n : Z) : Q := fl (inject_Z n / 10)%Q.

Section Engine.

(** What the engine supplies: the digits of a Number, and the Numbers
    [Math.log] and [Math.pow] return, which ECMAScript leaves to the
    implementation to approximate.  [Math_log] is read at integers from 1
    on and [Math_pow] at the base [k], where the results are finite. *)
Variable Number_toString : Q -> string.
Variable Math_log : Z -> Q.
Variable Math_pow : Z -> Z -> Q.

(** [Math.floor(Math.log(bytes) / Math.log(k))]. *)
Definition unit_index (bytes : Z) : Z :=
  Math_floor (fdiv (Math_log bytes) (Math_log k)).

(** [parseFloat((bytes / Math.pow(k, i)).toFixed(1))]. *)
Definition shown (bytes i : Z) : Q :=
  parseFloat_tenths (toFixed1 (fdiv (inject_Z bytes) (Math_pow k i))).

Definition formatFileSize (bytes : Z) : string :=
  if (bytes =? 0)%Z then "0 B"
  else
    let i := unit_index bytes in
    Number_toString (shown bytes i) ++ " " ++
    match sizes_at i with
    | Some unit => unit
    | None => "undefined"
    end.

(** The accuracy asked of [Math.log]: the quotient of the two Numbers it
    returns is within [2^-40] of the quotient of the logarithms.  An error
    of one unit in the last place on each of the two calls stays below
    [2^-49] for the sizes considered. *)
Definition log_accurate (bytes : Z) : Prop :=
  (Rabs (Q2R (Math_log bytes) / Q2R (Math_log k)
         - ln (IZR bytes) / ln (IZR k)) <= / 2 ^ 40)%R.

End Engine.

(** A bound on the quotient that [log_accurate] gives below [1024^3]:
    [3 - 2^-34]. *)
Definition quotient_cap : Q := 51539607551 # 17179869184.

(** A [Math.log] with its values at 1 and at 1024, where it is
    6.931471805599453, and an exact [Math.pow]. *)
Definition log_table (x : Z) : Q :=
  if (x =? 1)%Z then 0 else 7804143460206699 # 1125899906842624.

Definition exact_pow (x y : Z) : Q := (inject_Z x ^ y)%Q.

End FileSize.

(** * Properties *)

(** ** Binary64 rounding *)

Module Binary64Facts.
Import Binary64.
Local Open Scope Q_scope.

Lemma pow2_pos (k : Z) : 0 < pow2 k.
Proof. apply Qpower_0_lt. reflexivity. Qed.

Lemma pow2_inject (k : Z) : (0 <= k)%Z -> pow2 k == inject_Z (2 ^ k).
Proof.
  intro H. unfold pow2. rewrite (Zpower_Qpower 2 k H). reflexivity.
Qed.

Lemma pow2_sub (a b : Z) : pow2 (a - b) == pow2 a / pow2 b.
Proof. unfold pow2. apply Qpower_minus. discriminate. Qed.

Lemma pow2_le (a b : Z) : (a <= b)%Z -> pow2 a <= pow2 b.
Proof. intro H. apply Qpower_le_compat_l; [exact H | discriminate]. Qed.

Lemma inject_div_le (A B p : Z) (q : positive) :
  (0 < B)%Z -> (A * Zpos q <= p * B)%Z ->
  inject_Z A / inject_Z B <= p # q.
Proof.
  intros HB H. apply Qle_shift_div_r.
  - unfold Qlt, inject_Z; simpl; lia.
  - unfold Qle, Qmult, inject_Z. simpl. lia.
Qed.

Lemma inject_div_gt (A B p : Z) (q : positive) :
  (0 < B)%Z -> (p * B < A * Zpos q)%Z ->
  p # q < inject_Z A / inject_Z B.
Proof.
  intros HB H. apply Qlt_shift_div_l.
  - unfold Qlt, inject_Z; simpl; lia.
  - unfold Qlt, Qmult, inject_Z. simpl. lia.
Qed.

(** [ilog2] is the binary exponent. *)
Lemma ilog2_spec (r : Q) :
  0 < r -> pow2 (ilog2 r) <= r /\ r < pow2 (ilog2 r + 1).
Proof.
  intro Hr. destruct r as [p q].
  assert (Hp : (0 < p)%Z) by (unfold Qlt in Hr; simpl in Hr; lia).
  pose proof (Z.log2_spec p Hp) as [Hp1 Hp2].
  pose proof (Z.log2_spec (Zpos q) (Pos2Z.is_pos q)) as [Hq1 Hq2].
  pose proof (Z.log2_nonneg p) as Ha.
  pose proof (Z.log2_nonneg (Zpos q)) as Hb.
  set (a := Z.log2 p) in *. set (b := Z.log2 (Zpos q)) in *.
  assert (Hpa : (0 < 2 ^ a)%Z) by (apply Z.pow_pos_nonneg; lia).
  assert (Hpb : (0 < 2 ^ b)%Z) by (apply Z.pow_pos_nonneg; lia).
  assert (Hup : p # q < pow2 (a - b + 1)).
  { replace (a - b + 1)%Z with (a + 1 - b)%Z by ring.
    rewrite pow2_sub, (pow2_inject (a + 1)), (pow2_inject b) by lia.
    apply inject_div_gt; [exact Hpb|].
    fold (Z.succ a). nia. }
  assert (Hlo : pow2 (a - b - 1) <= p # q).
  { replace (a - b - 1)%Z with (a - (b + 1))%Z by ring.
    rewrite pow2_sub, (pow2_inject a), (pow2_inject (b + 1)) by lia.
    apply inject_div_le.
    - apply Z.pow_pos_nonneg; lia.
    - fold (Z.succ b). nia. }
  unfold ilog2. simpl Qnum. simpl Qden. fold a b.
  destruct (Qle_bool (pow2 (a - b)) (p # q)) eqn:E.
  - split; [apply Qle_bool_iff; exact E | exact Hup].
  - split; [exact Hlo|].
    replace (a - b - 1 + 1)%Z with (a - b)%Z by ring.
    apply Qnot_le_lt. intro H. apply Qle_bool_iff in H. congruence.
Qed.

Lemma round_half_even_cases (x : Q) :
  round_half_even x = Qfloor x \/ round_half_even x = (Qfloor x + 1)%Z.
Proof.
  unfold round_half_even.
  destruct (Qcompare (x - inject_Z (Qfloor x)) (1 # 2));
    [destruct (Z.even (Qfloor x))|..]; auto.
Qed.

Lemma round_half_even_ge (x : Q) (n : Z) :
  inject_Z n <= x -> (n <= round_half_even x)%Z.
Proof.
  intro H. apply Qfloor_resp_le in H. rewrite Qfloor_Z in H.
  destruct (round_half_even_cases x) as [E | E]; rewrite E; lia.
Qed.

Lemma round_half_even_le (x : Q) (n : Z) :
  x <= inject_Z n -> (round_half_even x <= n)%Z.
Proof.
  intro H. pose proof (Qfloor_resp_le _ _ H) as Hf. rewrite Qfloor_Z in Hf.
  destruct (Z.eq_dec (Qfloor x) n) as [E | NE].
  - unfold round_half_even. rewrite <- E in H.
    destruct (Qcompare_spec (x - inject_Z (Qfloor x)) (1 # 2));
      [exfalso; lra | lia | exfalso; lra].
  - destruct (round_half_even_cases x) as [E | E]; rewrite E; lia.
Qed.

(** An integer is left where it is. *)
Lemma round_half_even_Z (n : Z) : round_half_even (inject_Z n) = n.
Proof.
  apply Z.le_antisymm.
  - apply round_half_even_le. apply Qle_refl.
  - apply round_half_even_ge. apply Qle_refl.
Qed.

Lemma round_pos_nonneg (r : Q) : 0 < r -> 0 <= round_pos r.
Proof.
  intro Hr. unfold round_pos.
  apply Qmult_le_0_compat; [|apply Qlt_le_weak, pow2_pos].
  change 0 with (inject_Z 0). rewrite <- Zle_Qle.
  apply round_half_even_ge.
  apply Qle_shift_div_l; [apply pow2_pos|].
  change (inject_Z 0) with 0. rewrite Qmult_0_l. apply Qlt_le_weak, Hr.
Qed.

(** Rounding stays within the binade of its argument. *)
Lemma round_pos_binade (r : Q) :
  0 < r -> pow2 (ilog2 r) <= round_pos r <= pow2 (ilog2 r + 1).
Proof.
  intro Hr. destruct (ilog2_spec r Hr) as [Hlo Hhi].
  unfold round_pos. set (k := ilog2 r) in *. set (e := (k - 52)%Z).
  pose proof (pow2_pos e) as He.
  assert (E52 : pow2 k == inject_Z (2 ^ 52) * pow2 e).
  { unfold e. rewrite pow2_sub, <- (pow2_inject 52) by lia.
    field. apply Qnot_eq_sym, Qlt_not_eq, pow2_pos. }
  assert (E53 : pow2 (k + 1) == inject_Z (2 ^ 53) * pow2 e).
  { unfold e. replace (k + 1)%Z with (k - 52 + 53)%Z at 1 by ring.
    unfold pow2 at 1. rewrite Qpower_plus by discriminate.
    fold (pow2 (k - 52)) (pow2 53). rewrite (pow2_inject 53) by lia.
    ring. }
  split.
  - rewrite E52. apply Qmult_le_compat_r; [|apply Qlt_le_weak, He].
    rewrite <- Zle_Qle. apply round_half_even_ge.
    apply Qle_shift_div_l; [exact He|]. rewrite <- E52. exact Hlo.
  - rewrite E53. apply Qmult_le_compat_r; [|apply Qlt_le_weak, He].
    rewrite <- Zle_Qle. apply round_half_even_le.
    apply Qle_shift_div_r; [exact He|]. rewrite <- E53.
    apply Qlt_le_weak, Hhi.
Qed.

(** Rounding does not pass an integer above the argument, as long as
    the argument is below 2^53. *)
Lemma round_pos_le_int (r : Q) (n : Z) :
  0 < r -> r <= inject_Z n -> inject_Z n < pow2 53 ->
  round_pos r <= inject_Z n.
Proof.
  intros Hr Hn H53. destruct (ilog2_spec r Hr) as [Hlo _].
  assert (Hk : (ilog2 r <= 52)%Z).
  { destruct (Z_le_gt_dec (ilog2 r) 52) as [L | G]; [exact L|].
    exfalso. assert (pow2 53 <= pow2 (ilog2 r)) by (apply pow2_le; lia).
    lra. }
  unfold round_pos. set (e := (ilog2 r - 52)%Z) in *.
  pose proof (pow2_pos e) as He.
  assert (En : inject_Z n == inject_Z (n * 2 ^ (- e)) * pow2 e).
  { rewrite inject_Z_mult, <- (pow2_inject (- e)) by lia.
    unfold pow2. rewrite Qpower_opp. field.
    apply Qnot_eq_sym, Qlt_not_eq, pow2_pos. }
  rewrite En. apply Qmult_le_compat_r; [|apply Qlt_le_weak, He].
  rewrite <- Zle_Qle. apply round_half_even_le.
  apply Qle_shift_div_r; [exact He|]. rewrite <- En. exact Hn.
Qed.

Lemma fl_nonneg (r : Q) : 0 <= r -> 0 <= fl r.
Proof.
  intro Hr. unfold fl. destruct (Qcompare_spec r 0) as [E | L | G].
  - apply Qle_refl.
  - lra.
  - apply round_pos_nonneg, G.
Qed.

Lemma fl_le_int (r : Q) (n : Z) :
  0 <= r -> r <= inject_Z n -> inject_Z n < pow2 53 -> fl r <= inject_Z n.
Proof.
  intros Hr Hn H53. unfold fl. destruct (Qcompare_spec r 0) as [E | L | G].
  - lra.
  - lra.
  - apply round_pos_le_int; assumption.
Qed.

Lemma Math_round_bounds (x : Q) (n : Z) :
  0 <= x -> x <= inject_Z n -> (0 <= Math_round x <= n)%Z.
Proof.
  intros H0 Hn. unfold Math_round. split.
  - change 0%Z with (Qfloor 0). apply Qfloor_resp_le. lra.
  - assert (H : (Qfloor (x + (1 # 2)) < n + 1)%Z).
    { rewrite Zlt_Qlt. apply Qle_lt_trans with (x + (1 # 2)).
      - apply Qfloor_le.
      - rewrite inject_Z_plus. change (inject_Z 1) with 1. lra. }
    lia.
Qed.

End Binary64Facts.

(** ** Dashboard *)

Module DashboardFacts.
Import Str Regex Binary64 Binary64Facts Dashboard.

(** The model of the arithmetic agrees with the hardware on the
    computation of the example below. *)
Example binary64_23_of_40 :
  same_value ((23 / 40) * 100)%float (fmul (fdiv 23 40) 100) = true.
Proof. vm_compute. reflexivity. Qed.

Example binary64_more :
  same_value (1 / 3)%float (fdiv 1 3) = true
  /\ same_value ((1 / 3) * 100)%float (fmul (fdiv 1 3) 100) = true
  /\ same_value ((29 / 200) * 100)%float (fmul (fdiv 29 200) 100) = true
  /\ same_value ((7 / 1000003) * 100)%float (fmul (fdiv 7 1000003) 100)
     = true
  /\ same_value (4503599627370497 / 9007199254740991)%float
       (fdiv 4503599627370497 9007199254740991) = true.
Proof. vm_compute. repeat split. Qed.

Example example_counts :
  match_count re_function docs_23_of_40 = 40%nat
  /\ match_count re_class docs_23_of_40 = 0%nat
  /\ markerCount docs_23_of_40 = 23%nat.
Proof. vm_compute. repeat split. Qed.

Lemma percentage_bounds (d t : nat) :
  (0 < t)%nat -> (d <= t)%nat ->
  (0 <= Math_round (fmul (fdiv (of_nat d) (of_nat t)) 100) <= 100)%Z.
Proof.
  intros Ht Hd. unfold fmul, fdiv, of_nat.
  assert (H53a : (inject_Z 1 < pow2 53)%Q) by (vm_compute; reflexivity).
  assert (H53b : (inject_Z 100 < pow2 53)%Q) by (vm_compute; reflexivity).
  assert (Htq : (0 < inject_Z (Z.of_nat t))%Q).
  { change 0%Q with (inject_Z 0). rewrite <- Zlt_Qlt. lia. }
  assert (Hdq : (0 <= inject_Z (Z.of_nat d))%Q).
  { change 0%Q with (inject_Z 0). rewrite <- Zle_Qle. lia. }
  assert (Hle : (inject_Z (Z.of_nat d) <= inject_Z (Z.of_nat t))%Q).
  { rewrite <- Zle_Qle. lia. }
  set (q := (inject_Z (Z.of_nat d) / inject_Z (Z.of_nat t))%Q).
  assert (Hq0 : (0 <= q)%Q).
  { unfold q. apply Qle_shift_div_l; [exact Htq|]. lra. }
  assert (Hq1 : (q <= inject_Z 1)%Q).
  { unfold q. apply Qle_shift_div_r; [exact Htq|].
    change (inject_Z 1) with 1%Q. lra. }
  pose proof (fl_nonneg q Hq0) as Hx0.
  pose proof (fl_le_int q 1 Hq0 Hq1 H53a) as Hx1.
  change (inject_Z 1) with 1%Q in Hx1.
  apply Math_round_bounds.
  - apply fl_nonneg. lra.
  - apply fl_le_int; [lra | | exact H53b].
    change (inject_Z 100) with 100%Q. lra.
Qed.

(** C9. After [calculateCoverage] the statistics satisfy
    documentedFunctions <= totalFunctions, documentedClasses <=
    totalClasses, both documented counts are at most the number of
    [Docstring:] markers, the coverage is an integer between 0 and 100,
    and it is the default 75 when the documentation has no function and
    no class definition. *)
Theorem dashboard_invariants (docs : string) :
  let st := calculateCoverage docs in
  (documentedFunctions (stats st) <= totalFunctions (stats st))%nat
  /\ (documentedClasses (stats st) <= totalClasses (stats st))%nat
  /\ (documentedFunctions (stats st) <= markerCount docs)%nat
  /\ (documentedClasses (stats st) <= markerCount docs)%nat
  /\ (0 <= coverage st <= 100)%Z
  /\ ((totalFunctions (stats st) + totalClasses (stats st) = 0)%nat ->
      coverage st = 75%Z).
Proof.
  unfold calculateCoverage, markerCount. simpl.
  set (f := match_count re_function docs).
  set (c := match_count re_class docs).
  set (m := match_count re_docstring docs).
  repeat split; try apply Nat.le_min_r; try apply Nat.le_min_l.
  - destruct (Nat.ltb_spec 0 (f + c)) as [Hpos | Hzero]; [|lia].
    apply percentage_bounds; [exact Hpos | apply Nat.le_min_r].
  - destruct (Nat.ltb_spec 0 (f + c)) as [Hpos | Hzero]; [|lia].
    apply percentage_bounds; [exact Hpos | apply Nat.le_min_r].
  - intro H. rewrite H. reflexivity.
Qed.

(** C2, at the documentation [docs_23_of_40]: forty [def] matches, no
    [class] match and twenty-three [Docstring:] markers.  The exact
    percentage 57.5 rounds to 58, and [calculateCoverage] reports 57,
    because the binary64 product [(23 / 40) * 100] lies below 57.5. *)
Theorem coverage_23_of_40 :
  let functions := match_count re_function docs_23_of_40 in
  let classes := match_count re_class docs_23_of_40 in
  let total := (functions + classes)%nat in
  let documented := Nat.min (markerCount docs_23_of_40) total in
  (0 < total)%nat
  /\ exact_percentage documented total = 58%Z
  /\ coverage (calculateCoverage docs_23_of_40) = 57%Z.
Proof.
  cbv zeta. split; [vm_compute; lia|].
  split; vm_compute; reflexivity.
Qed.

End DashboardFacts.

(** ** RecentFiles and the upload input *)

Module RecentFilesFacts.
Import Str Js RecentFiles.

Lemma split_not_nil (sep : ascii) (s : string) : split sep s <> [].
Proof.
  induction s as [|c s IH]; simpl.
  - discriminate.
  - destruct (Ascii.eqb c sep); [discriminate|].
    destruct (split sep s); discriminate.
Qed.

(** Every file name has an extension in the sense of the handler. *)
Lemma extension_defined (name : string) :
  exists ext, extension name = Some ext.
Proof.
  unfold extension, pop.
  destruct (rev (split "." name)) as [|x l] eqn:E.
  - exfalso. apply (split_not_nil "." name).
    rewrite <- (rev_involutive (split "." name)), E. reflexivity.
  - eexists. reflexivity.
Qed.




(** A recognized extension, whatever its case, does reach the parse
    endpoint when the cached file is served. *)
Example supported_extension_parsed :
  existsb is_parse_request
    (handleFileClick decimal (mkEntry "8" "Main.JAVA")
       (mkNetwork None
          (App.Body true (Obj [("content", Str "class Main {}");
                               ("filename", Str "Main.JAVA")]))
          (App.Body true (Obj [("markdown_content", Str "# Main")]))))
  = true.
Proof. reflexivity. Qed.

End RecentFilesFacts.

(** ** CodeUpload and App *)

Module UploadFacts.
Import Str Js App CodeUpload.

Lemma get_defined (data : jsval) (name other : string) (x : jsval) :
  get data name = Ok x -> get data other = Ok (get_opt data other).
Proof.
  destruct data as [[| | | | |props]|]; simpl; intro H;
    try discriminate; reflexivity.
Qed.

(** C3. When the answer to the parse request carries a truthy [error],
    the upload handler sets its error text to the returned [message],
    or to the generic text when there is none, and does not call
    [onFileUpload]: whatever that callback is, the state of the parent
    is the one before with the loading flag lowered, so the uploaded
    file, the documentation, the language and the suggestions stay. *)
Theorem parse_error_is_terminal
  (Number_toString : Q -> string)
  (onFileUpload : File -> jsval -> jsval -> State -> State)
  (file : File) (rest : list File) (data flag err : jsval) (st : State) :
  get data "error" = Ok flag ->
  truthy_opt flag = true ->
  let message := get_opt data "message" in
  let after :=
    handleFiles Number_toString State onFileUpload handleLoading
      (file :: rest) (Resolved data) (err, st) in
  after = (or_else message (Some (Str "Error processing file")),
           handleLoading false (handleLoading true st))
  /\ (truthy_opt message = true -> fst after = message)
  /\ (truthy_opt message = false ->
      fst after = Some (Str "Error processing file"))
  /\ uploadedFile (snd after) = uploadedFile st
  /\ generatedDocs (snd after) = generatedDocs st
  /\ language (snd after) = language st
  /\ suggestions (snd after) = suggestions st.
Proof.
  intros Hget Hflag message after.
  assert (E : after
              = (or_else message (Some (Str "Error processing file")),
                 handleLoading false (handleLoading true st))).
  { unfold after, handleFiles. rewrite Hget, Hflag.
    rewrite (get_defined data "error" "message" flag Hget).
    reflexivity. }
  rewrite E. simpl. unfold or_else.
  repeat split; try reflexivity; intro H; rewrite H; reflexivity.
Qed.

Lemma parse_error_is_terminal_witness :
  truthy_opt (Some (Bool true)) = true
  /\ handleFiles decimal State (handleFileUpload no_suggestions_field)
       handleLoading [second] unsupported_answer
       (Some (Str EmptyString), showing_earlier)
     = (Some (Str "Unsupported file type: .txt"),
        handleLoading false (handleLoading true showing_earlier)).
Proof.
  split; [reflexivity|].
  apply (parse_error_is_terminal decimal
           (handleFileUpload no_suggestions_field) second []
           (Some (Obj [("error", Bool true);
                       ("message", Str "Unsupported file type: .txt")]))
           (Some (Bool true)) (Some (Str EmptyString)) showing_earlier).
  - reflexivity.
  - reflexivity.
Defined.

(** A rejected request does not reach [onFileUpload] either. *)
Lemma rejection_is_terminal
  (Number_toString : Q -> string)
  (onFileUpload : File -> jsval -> jsval -> State -> State)
  (file : File) (rest : list File) (e : AxiosError) (err : jsval)
  (st : State) :
  handleFiles Number_toString State onFileUpload handleLoading
    (file :: rest) (Rejected e) (err, st)
  = (Some (Str (rejection Number_toString e)),
     handleLoading false (handleLoading true st)).
Proof. reflexivity. Qed.

(** Without an error flag the callback is called with the
    documentation and the language of the answer. *)
Lemma success_calls_onFileUpload
  (Number_toString : Q -> string)
  (onFileUpload : File -> jsval -> jsval -> State -> State)
  (file : File) (rest : list File) (data flag err : jsval) (st : State) :
  get data "error" = Ok flag ->
  truthy_opt flag = false ->
  handleFiles Number_toString State onFileUpload handleLoading
    (file :: rest) (Resolved data) (err, st)
  = (Some (Str EmptyString),
     handleLoading false
       (onFileUpload file (get_opt data "markdown_content")
          (get_opt data "language") (handleLoading true st))).
Proof.
  intros Hget Hflag. unfold handleFiles. rewrite Hget, Hflag.
  rewrite (get_defined data "error" "markdown_content" flag Hget).
  rewrite (get_defined data "error" "language" flag Hget).
  reflexivity.
Qed.

(** C6, at the state [showing_earlier] and an answer to the suggestion
    request that has no [suggestions] field: the upload of the second
    file leaves the suggestions of the earlier file in place, where the
    claim has the empty list. *)
Theorem missing_field_keeps_earlier_suggestions :
  let st := handleFileUpload no_suggestions_field second second_docs
              (Some (Str "python")) showing_earlier in
  uploadedFile st = Some second
  /\ generatedDocs st = second_docs
  /\ suggestions st = Some (Arr [earlier])
  /\ suggestions st <> Some (Arr []).
Proof. cbv zeta. repeat split. discriminate. Qed.

(** The sibling path: a failed request does empty the list. *)
Lemma failed_request_empties_suggestions (file : File) (docs lang : jsval)
  (st : State) :
  suggestions (handleFileUpload FetchRejected file docs lang st)
  = Some (Arr [])
  /\ forall ok, suggestions (handleFileUpload (BodyRejected ok) file docs
                               lang st) = Some (Arr []).
Proof. split; reflexivity. Qed.

(** An empty list shows the neutral state, not an error. *)
Lemma empty_list_shows_default (Number_toString : Q -> string) :
  exists header,
    Suggestions.Suggestions Number_toString [] false
    = Some (Dom.El "div" "suggestions"
              [header;
               Dom.El "div" "suggestions-content"
                 [Suggestions.getDefaultContent]]).
Proof. eexists. reflexivity. Qed.

End UploadFacts.

(** ** Documentation *)

Module DocumentationFacts.
Import Str Js Dom Documentation.

Example formatContent_sample :
  formatContent (Some (Str sample))
  = Ok ("<h1 class=" ++ dq ++ "doc-h1" ++ dq ++ ">parser.py</h1><br />"
        ++ "<h2 class=" ++ dq ++ "doc-h2" ++ dq ++ ">Functions</h2><br />"
        ++ "<div class=" ++ dq ++ "doc-list-item" ++ dq ++ ">" ++ bullet
        ++ " <strong class=" ++ dq ++ "doc-strong" ++ dq
        ++ ">parse</strong> takes <code class=" ++ dq ++ "doc-code" ++ dq
        ++ ">text</code> and <em class=" ++ dq ++ "doc-em" ++ dq
        ++ ">returns</em> a tree</div>").
Proof. vm_compute. reflexivity. Qed.

(** On a string [formatContent] does not throw. *)
Lemma formatContent_string (t : string) :
  formatContent (Some (Str t))
  = Ok (match t with
        | EmptyString => EmptyString
        | _ => replacements t
        end).
Proof. destruct t; reflexivity. Qed.

(** C7. Rendering is a function of the content alone: two renders of
    the same content string give the same HTML, which is the fixed chain
    of replacements applied to the string, and the documentation block
    on the page is the same whatever the other props are. *)
Theorem formatContent_deterministic
  (p q : Props) (t : string) :
  content p = Some (Str t) ->
  content q = Some (Str t) ->
  isLoading p = isLoading q ->
  (exists html, formatContent (content p) = Ok html
                /\ formatContent (content q) = Ok html
                /\ (t <> EmptyString -> html = replacements t))
  /\ documentationContent p = documentationContent q.
Proof.
  intros Hp Hq Hl. split.
  - rewrite Hp, Hq, formatContent_string. eexists. repeat split.
    intro Ht. destruct t; [contradiction | reflexivity].
  - unfold documentationContent. rewrite Hp, Hq, Hl. reflexivity.
Qed.

Lemma formatContent_deterministic_witness :
  content (mkProps (Some (Str sample)) (Some (Str "python"))
             (Some (Str "parser.py")) false) = Some (Str sample)
  /\ documentationContent
       (mkProps (Some (Str sample)) (Some (Str "python"))
                (Some (Str "parser.py")) false)
     = documentationContent
         (mkProps (Some (Str sample)) None None false).
Proof.
  split; [reflexivity|].
  apply (formatContent_deterministic
           (mkProps (Some (Str sample)) (Some (Str "python"))
                    (Some (Str "parser.py")) false)
           (mkProps (Some (Str sample)) None None false) sample);
    reflexivity.
Defined.

End DocumentationFacts.

(** ** Suggestions *)

Module SuggestionsFacts.
Import Str Js Dom Suggestions.

(** On [null] the read of [message] throws; the panel does not get
    that far, it reads [type] on the suggestion first. *)
Lemma formatSuggestion_null_throws :
  formatSuggestion decimal (Some Null)
  = Throw (cannot_read "null" "message").
Proof. reflexivity. Qed.

(** C8, at the suggestion [{message: 42}]: the item renders, and
    [formatSuggestion] returns the Number 42, not a string. *)
Lemma formatSuggestion_returns_number :
  formatSuggestion decimal (Some Accept.numeric_message)
  = Ok (Some (Num 42))
  /\ ~ is_string (Some (Num 42))
  /\ by_class "suggestion-message"
       (match item decimal 0 Accept.numeric_message with
        | Some n => n
        | None => Text EmptyString
        end)
     = [El "p" "suggestion-message" [Text "42"]].
Proof.
  split; [reflexivity|]. split; [|reflexivity].
  intros [s H]. discriminate H.
Qed.

(** C8, amended. On every value that reaches it, that is every value
    but [null], [formatSuggestion] returns without an error: a string
    unchanged, for another value its truthy [message], and otherwise the
    JSON serialization of the value; the result is a string unless it
    is a [message] that is not one. *)
Theorem formatSuggestion_total
  (Number_toString : Q -> string) (v : value) :
  v <> Null ->
  exists out,
    formatSuggestion Number_toString (Some v) = Ok out
    /\ (forall s, v = Str s -> out = Some (Str s))
    /\ ((forall s, v <> Str s) ->
        truthy_opt (get_opt (Some v) "message") = true ->
        out = get_opt (Some v) "message")
    /\ ((forall s, v <> Str s) ->
        truthy_opt (get_opt (Some v) "message") = false ->
        out = Some (Str (JSON_stringify Number_toString v)))
    /\ (is_string out \/ out = get_opt (Some v) "message").
Proof.
  intro Hnull. destruct v as [|b|q|s|l|props].
  - contradiction.
  - eexists. split; [reflexivity|]. repeat split; intros;
      try discriminate; try reflexivity. left. eexists. reflexivity.
  - eexists. split; [reflexivity|]. repeat split; intros;
      try discriminate; try reflexivity. left. eexists. reflexivity.
  - exists (Some (Str s)). split; [reflexivity|]. repeat split.
    + intros s' E. inversion E. reflexivity.
    + intro H. exfalso. apply (H s). reflexivity.
    + intro H. exfalso. apply (H s). reflexivity.
    + left. eexists. reflexivity.
  - eexists. split; [reflexivity|]. repeat split; intros;
      try discriminate; try reflexivity. left. eexists. reflexivity.
  - unfold formatSuggestion. simpl.
    destruct (truthy_opt (lookup "message" props)) eqn:E.
    + eexists. split; [reflexivity|]. repeat split; intros;
        try discriminate; try reflexivity. right. reflexivity.
    + eexists. split; [reflexivity|]. repeat split; intros;
        try discriminate; try reflexivity. left. eexists. reflexivity.
Qed.

Lemma formatSuggestion_total_witness :
  to_json empty_excerpt <> Null
  /\ exists out,
       formatSuggestion decimal (Some (to_json empty_excerpt)) = Ok out
       /\ out = Some (Str "Function f has no docstring").
Proof.
  split; [discriminate|].
  destruct (formatSuggestion_total decimal (to_json empty_excerpt))
    as [out [E [_ [Hm _]]]].
  - discriminate.
  - exists out. split; [exact E|]. apply Hm.
    + intros s H. discriminate H.
    + reflexivity.
Defined.

(** C5, at [empty_excerpt]: the code field is present and no code
    excerpt is rendered. *)
Lemma present_code_not_rendered :
  code empty_excerpt <> None
  /\ exists n, item decimal 0 (to_json empty_excerpt) = Some n
               /\ has_class "suggestion-code" n = false.
Proof.
  split; [discriminate|]. eexists. split; reflexivity.
Qed.

(** A Suggestion record always renders. *)
Lemma record_renders (Number_toString : Q -> string) (index : nat)
  (s : Suggestion) :
  exists n, item Number_toString index (to_json s) = Some n.
Proof.
  destruct s as [t l m c].
  destruct t; destruct l as [[|k]|]; destruct m as [|a m];
    destruct c as [[|b c]|]; eexists; reflexivity.
Qed.

Lemma records_render (Number_toString : Q -> string)
  (l : list Suggestion) (index : nat) :
  exists ns, items Number_toString index (map to_json l) = Some ns.
Proof.
  revert index. induction l as [|s l IH]; intro index; simpl.
  - eexists. reflexivity.
  - destruct (record_renders Number_toString index s) as [n Hn].
    destruct (IH (S index)) as [ns Hns].
    rewrite Hn, Hns. eexists. reflexivity.
Qed.

(** The list is rendered element by element, in the order received,
    the [i]-th element under the key [i]. *)
Lemma items_in_order (Number_toString : Q -> string)
  (l : list value) :
  forall (index : nat) (ns : list node),
    items Number_toString index l = Some ns ->
    List.length ns = List.length l
    /\ forall i v, nth_error l i = Some v ->
                   nth_error ns i
                   = item Number_toString (index + i) v.
Proof.
  induction l as [|x l IH]; intros index ns H; simpl in H.
  - inversion H. split; [reflexivity|].
    intros [|i] v Hv; discriminate Hv.
  - destruct (item Number_toString index x) as [n|] eqn:En;
      [|discriminate].
    destruct (items Number_toString (S index) l) as [ns'|] eqn:Ens;
      [|discriminate].
    inversion H; subst ns. destruct (IH (S index) ns' Ens) as [Hlen Hnth].
    split; [simpl; rewrite Hlen; reflexivity|].
    intros [|i] v Hv; simpl in Hv |- *.
    + inversion Hv; subst v. rewrite Nat.add_0_r. symmetry. exact En.
    + rewrite (Hnth i v Hv). f_equal. lia.
Qed.

Lemma positive_line_truthy (k : nat) :
  truthy (Num (inject_Z (Z.of_nat (S k)))) = true.
Proof. reflexivity. Qed.

Ltac settle :=
  repeat split; intros;
  repeat match goal with
         | H : exists _, _ |- _ => destruct H
         | H : _ /\ _ |- _ => destruct H
         end;
  try discriminate; try congruence; eauto;
  try (eexists; split; [reflexivity | discriminate]).

(** C5, amended. A Suggestion record always renders; the line label is
    there exactly when the line is present and not zero, the code
    excerpt exactly when the code is present and not empty, there is
    always one message paragraph, and it holds the message whenever the
    message is not empty. *)
Theorem optional_fields_displayed
  (Number_toString : Q -> string) (index : nat) (s : Suggestion) :
  exists n,
    item Number_toString index (to_json s) = Some n
    /\ (has_class "suggestion-line" n = true
        <-> exists k, line s = Some (S k))
    /\ (has_class "suggestion-code" n = true
        <-> exists c, code s = Some c /\ c <> EmptyString)
    /\ List.length (by_class "suggestion-message" n) = 1%nat
    /\ (message s <> EmptyString ->
        by_class "suggestion-message" n
        = [El "p" "suggestion-message" [Text (message s)]]).
Proof.
  destruct s as [t l m c].
  destruct t; destruct l as [[|k]|]; destruct m as [|a m];
    destruct c as [[|b c]|];
    (eexists; split; [reflexivity|]); simpl; settle.
Qed.

End SuggestionsFacts.

(** ** The order of suggestions *)

Module EngineFacts.
Import Str Js Dom Suggestions Engine SuggestionsFacts.

Lemma before_true (a b : Suggestion) : before a b = true -> in_order a b.
Proof.
  unfold before, in_order. intro H.
  apply orb_true_iff in H. destruct H as [H | H].
  - apply Nat.ltb_lt in H. lia.
  - apply andb_true_iff in H. destruct H as [H1 H2].
    apply Nat.eqb_eq in H1. apply Nat.leb_le in H2. lia.
Qed.

Lemma before_false (a b : Suggestion) : before a b = false -> in_order b a.
Proof.
  unfold before, in_order. intro H.
  apply orb_false_iff in H. destruct H as [H1 H2].
  apply Nat.ltb_ge in H1. apply andb_false_iff in H2.
  destruct H2 as [H2 | H2].
  - apply Nat.eqb_neq in H2. lia.
  - apply Nat.leb_gt in H2. lia.
Qed.

Lemma in_order_trans (a b c : Suggestion) :
  in_order a b -> in_order b c -> in_order a c.
Proof. unfold in_order. lia. Qed.

Lemma insert_perm (s : Suggestion) (l : list Suggestion) :
  Permutation (s :: l) (insert s l).
Proof.
  induction l as [|x l IH]; simpl.
  - apply Permutation_refl.
  - destruct (before s x).
    + apply Permutation_refl.
    + eapply perm_trans; [apply perm_swap|]. apply perm_skip, IH.
Qed.

(** Sorting loses nothing and invents nothing. *)
Lemma sort_perm (l : list Suggestion) : Permutation l (sort l).
Proof.
  induction l as [|x l IH]; simpl.
  - apply perm_nil.
  - eapply perm_trans; [apply perm_skip, IH | apply insert_perm].
Qed.

Lemma insert_sorted (s : Suggestion) (l : list Suggestion) :
  StronglySorted in_order l -> StronglySorted in_order (insert s l).
Proof.
  induction 1 as [|x l Hs IH Hx]; simpl.
  - constructor; constructor.
  - destruct (before s x) eqn:E.
    + constructor; [constructor; assumption|].
      constructor; [apply before_true, E|].
      eapply Forall_impl; [|exact Hx].
      intros y Hy. eapply in_order_trans; [apply before_true, E | exact Hy].
    + constructor; [exact IH|].
      eapply Permutation_Forall; [apply insert_perm|].
      constructor; [apply before_false, E | exact Hx].
Qed.

Lemma sort_sorted (l : list Suggestion) : StronglySorted in_order (sort l).
Proof.
  induction l as [|x l IH]; simpl.
  - constructor.
  - apply insert_sorted, IH.
Qed.

Lemma sorted_pairs (l : list Suggestion) :
  StronglySorted in_order l ->
  forall i j a b, (i < j)%nat ->
    nth_error l i = Some a -> nth_error l j = Some b -> in_order a b.
Proof.
  induction 1 as [|x l Hs IH Hx]; intros i j a b Hij Ha Hb.
  - destruct i; discriminate Ha.
  - destruct j as [|j]; [lia|]. simpl in Hb. destruct i as [|i].
    + simpl in Ha. inversion Ha; subst a.
      rewrite Forall_forall in Hx. apply Hx.
      eapply nth_error_In, Hb.
    + simpl in Ha. apply (IH i j); [lia | exact Ha | exact Hb].
Qed.

(** C4. The list [analyze] produces is in source-line order, the line
    numbers never decreasing and, at equal lines, the severity rank
    never increasing; and the panel renders the list it receives
    element by element in that order, the [i]-th suggestion as the
    [i]-th item under the key [i]. *)
Theorem suggestions_in_order
  (Number_toString : Q -> string) (rules : list rule)
  (unit : SourceUnit) :
  let l := analyze rules unit in
  StronglySorted in_order l
  /\ (forall i j a b x y, (i < j)%nat ->
        nth_error l i = Some a -> nth_error l j = Some b ->
        line a = Some x -> line b = Some y ->
        (x <= y)%nat /\ (x = y -> (rank (type b) <= rank (type a))%nat))
  /\ exists ns,
       items Number_toString 0 (map to_json l) = Some ns
       /\ List.length ns = List.length l
       /\ (forall i s, nth_error l i = Some s ->
             nth_error ns i = item Number_toString i (to_json s))
       /\ (l <> [] ->
           exists header,
             Suggestions.Suggestions Number_toString (map to_json l) false
             = Some (El "div" "suggestions"
                       [header;
                        El "div" "suggestions-content"
                          [El "div" "suggestions-list" ns]])).
Proof.
  intro l. assert (Hs : StronglySorted in_order l) by apply sort_sorted.
  split; [exact Hs|]. split.
  - intros i j a b x y Hij Ha Hb Hx Hy.
    pose proof (sorted_pairs l Hs i j a b Hij Ha Hb) as [H1 H2].
    unfold line_key in H1, H2. rewrite Hx, Hy in H1, H2. split; [lia|].
    intro E. apply H2. congruence.
  - destruct (records_render Number_toString l 0) as [ns Hns].
    exists ns. split; [exact Hns|].
    destruct (items_in_order Number_toString (map to_json l) 0 ns Hns)
      as [Hlen Hnth].
    split; [rewrite Hlen; apply length_map|]. split.
    + intros i s Hi. apply (Hnth i (to_json s)).
      rewrite nth_error_map, Hi. reflexivity.
    + intro Hne. unfold Suggestions.Suggestions. rewrite length_map.
      destruct l as [|s0 l0]; [contradiction|].
      simpl List.length. simpl Nat.ltb. cbv iota.
      rewrite Hns. eexists. reflexivity.
Qed.

Example analyze_example :
  map (fun s => (line s, type s))
    (analyze [missing_documentation; excess_parameters; oversized_function]
       (mkSourceUnit []
          [mkClassSymbol "Parser" 10 40 None
             [mkFunctionSymbol "run" 12 30
                (repeat (mkParam "p" None None) 7) None None 18 true] []]
          [mkFunctionSymbol "main" 3 8 [] None (Some "Entry point.") 5
             false]))
  = [(Some 10%nat, info); (Some 12%nat, warning); (Some 12%nat, info)].
Proof. reflexivity. Qed.

End EngineFacts.

(** * Further properties *)

(** ** The replacements of formatContent *)

Module FormatFacts.
Import Str Regex Js Text.

Lemma occurs_append (c : ascii) (s t : string) :
  occurs c (s ++ t) = occurs c s || occurs c t.
Proof.
  induction s as [|a s IH]; simpl; [reflexivity|].
  rewrite IH. apply orb_assoc.
Qed.

Lemma render_raws (tpl : string -> string) (s : string) :
  render tpl (raws s) = s.
Proof. induction s as [|a s IH]; simpl; [|rewrite IH]; reflexivity. Qed.

(** The last replacement leaves no line feed behind. *)
Lemma newline_replaced (s : string) :
  forall prev,
    occurs LF (render (fun _ => "<br />")
                 (scan Documentation.re_newline prev 0 s)) = false.
Proof.
  induction s as [|a s IH]; intro prev; [reflexivity|].
  simpl. destruct (Ascii.eqb a (ascii_of_nat 10)) eqn:E; simpl.
  - apply IH.
  - unfold LF. rewrite E. apply IH.
Qed.

(** After [formatContent], in the documentation panel and in the
    preview alike, the HTML has no line feed: every one of them has
    become a [<br />]. *)
Theorem formatContent_no_line_feed (text : string) :
  occurs LF (Documentation.replacements text) = false
  /\ occurs LF (Preview.replacements text) = false.
Proof.
  split; unfold Documentation.replacements, Preview.replacements,
    replace_all; apply newline_replaced.
Qed.

Lemma no_match_without_first (c : ascii) (pat : pattern) :
  starts_with c pat ->
  forall prev s, occurs c s = false -> match_here pat prev s = None.
Proof.
  intros Hp prev s Hs.
  destruct pat as [|[c1|p|g p cap| |] pat']; simpl in Hp; try contradiction.
  - subst c1. destruct s as [|a s]; simpl; [reflexivity|].
    simpl in Hs. apply orb_false_iff in Hs. destruct Hs as [Ha _].
    rewrite Ha. reflexivity.
  - destruct pat' as [|[c1|p|g p cap| |] pat'']; try contradiction.
    subst c1. simpl. destruct (at_bol prev); [|reflexivity].
    destruct s as [|a s]; [reflexivity|].
    simpl in Hs. apply orb_false_iff in Hs. destruct Hs as [Ha _].
    rewrite Ha. reflexivity.
Qed.

(** Without its first character a pattern finds nothing, and the scan
    returns the string as it is. *)
Lemma scan_without_first (c : ascii) (pat : pattern) :
  starts_with c pat ->
  forall s prev, occurs c s = false -> scan pat prev 0 s = raws s.
Proof.
  intros Hp s. induction s as [|a s IH]; intros prev Hs.
  - simpl. rewrite (no_match_without_first c pat Hp prev EmptyString Hs).
    reflexivity.
  - simpl. rewrite (no_match_without_first c pat Hp prev (String a s) Hs).
    simpl in Hs. apply orb_false_iff in Hs. destruct Hs as [_ Hs].
    rewrite (IH (Some a) Hs). reflexivity.
Qed.

Lemma replace_without_first (c : ascii) (pat : pattern)
  (tpl : string -> string) (s : string) :
  starts_with c pat -> occurs c s = false -> replace_all pat tpl s = s.
Proof.
  intros Hp Hs. unfold replace_all.
  rewrite (scan_without_first c pat Hp s None Hs). apply render_raws.
Qed.

Lemma plain_occurs (s : string) (c : ascii) :
  plain s = true -> is_markup c = true -> occurs c s = false.
Proof.
  intros Hs Hc. induction s as [|a s IH]; [reflexivity|].
  simpl in Hs |- *. apply andb_true_iff in Hs. destruct Hs as [Ha Hs].
  rewrite (IH Hs), orb_false_r.
  destruct (Ascii.eqb_spec a c) as [E | NE]; [|reflexivity].
  subst a. rewrite Hc in Ha. discriminate Ha.
Qed.

(** A text without [#], [*], a backquote, [-] and line feed goes through
    [formatContent] unchanged, in the documentation panel and in the
    preview: nothing else is rewritten, so HTML markup in the text
    reaches [dangerouslySetInnerHTML] as it was written. *)
Theorem formatContent_plain_unchanged (text : string) :
  plain text = true ->
  Documentation.formatContent (Some (Str text)) = Ok text
  /\ Preview.formatContent (Some (Str text)) = Ok text.
Proof.
  intro Hp.
  assert (H1 : occurs "#" text = false) by (apply plain_occurs; auto).
  assert (H2 : occurs "*" text = false) by (apply plain_occurs; auto).
  assert (H3 : occurs "`" text = false) by (apply plain_occurs; auto).
  assert (H4 : occurs "-" text = false) by (apply plain_occurs; auto).
  assert (H5 : occurs LF text = false) by (apply plain_occurs; auto).
  assert (D : Documentation.replacements text = text).
  { unfold Documentation.replacements.
    rewrite (replace_without_first "#" _ _ text) by (simpl; auto).
    rewrite (replace_without_first "#" _ _ text) by (simpl; auto).
    rewrite (replace_without_first "#" _ _ text) by (simpl; auto).
    rewrite (replace_without_first "*" _ _ text) by (simpl; auto).
    rewrite (replace_without_first "*" _ _ text) by (simpl; auto).
    rewrite (replace_without_first "`" _ _ text) by (simpl; auto).
    rewrite (replace_without_first "-" _ _ text) by (simpl; auto).
    apply (replace_without_first LF); [reflexivity | exact H5]. }
  assert (P : Preview.replacements text = text).
  { unfold Preview.replacements.
    rewrite (replace_without_first "#" _ _ text) by (simpl; auto).
    rewrite (replace_without_first "#" _ _ text) by (simpl; auto).
    rewrite (replace_without_first "#" _ _ text) by (simpl; auto).
    rewrite (replace_without_first "*" _ _ text) by (simpl; auto).
    rewrite (replace_without_first "*" _ _ text) by (simpl; auto).
    rewrite (replace_without_first "`" _ _ text) by (simpl; auto).
    apply (replace_without_first LF); [reflexivity | exact H5]. }
  unfold Documentation.formatContent, Preview.formatContent.
  destruct text as [|a text]; [split; reflexivity|].
  simpl truthy_opt. cbv iota. rewrite D, P. split; reflexivity.
Qed.

Lemma formatContent_plain_unchanged_witness :
  plain "<img src=x onerror=alert(1)>" = true
  /\ Documentation.formatContent (Some (Str "<img src=x onerror=alert(1)>"))
     = Ok "<img src=x onerror=alert(1)>".
Proof.
  split; [reflexivity|].
  apply (formatContent_plain_unchanged "<img src=x onerror=alert(1)>").
  reflexivity.
Defined.

End FormatFacts.

(** ** More on binary64 rounding and the coverage *)

Module CoverageFacts.
Import Str Regex Binary64 Binary64Facts Dashboard DashboardFacts.
Local Open Scope Q_scope.

Lemma round_half_even_mono (x y : Q) :
  x <= y -> (round_half_even x <= round_half_even y)%Z.
Proof.
  intro H. pose proof (Qfloor_resp_le _ _ H) as Hf.
  destruct (Z.eq_dec (Qfloor x) (Qfloor y)) as [E | NE].
  - unfold round_half_even. rewrite <- E.
    destruct (Qcompare_spec (x - inject_Z (Qfloor x)) (1 # 2)) as [Ex|Lx|Gx];
      destruct (Qcompare_spec (y - inject_Z (Qfloor x)) (1 # 2))
        as [Ey|Ly|Gy];
      try destruct (Z.even (Qfloor x)); try lia; exfalso; lra.
  - destruct (round_half_even_cases x) as [Ex | Ex];
      destruct (round_half_even_cases y) as [Ey | Ey]; rewrite Ex, Ey; lia.
Qed.

Lemma ilog2_mono (r r' : Q) :
  0 < r -> r <= r' -> (ilog2 r <= ilog2 r')%Z.
Proof.
  intros Hr Hle. assert (Hr' : 0 < r') by lra.
  destruct (ilog2_spec r Hr) as [Hlo _].
  destruct (ilog2_spec r' Hr') as [_ Hhi].
  assert (H : pow2 (ilog2 r) < pow2 (ilog2 r' + 1)) by lra.
  apply Qpower_lt_compat_l_inv in H; [lia | reflexivity].
Qed.

Lemma round_pos_mono (r r' : Q) :
  0 < r -> r <= r' -> round_pos r <= round_pos r'.
Proof.
  intros Hr Hle. assert (Hr' : 0 < r') by lra.
  pose proof (ilog2_mono r r' Hr Hle) as Hk.
  destruct (Z.eq_dec (ilog2 r) (ilog2 r')) as [E | NE].
  - unfold round_pos. rewrite <- E. set (e := (ilog2 r - 52)%Z).
    pose proof (pow2_pos e) as He.
    apply Qmult_le_compat_r; [|apply Qlt_le_weak, He].
    rewrite <- Zle_Qle. apply round_half_even_mono.
    apply Qmult_le_compat_r; [exact Hle|].
    apply Qlt_le_weak, Qinv_lt_0_compat, He.
  - destruct (round_pos_binade r Hr) as [_ Hup].
    destruct (round_pos_binade r' Hr') as [Hlo _].
    assert (pow2 (ilog2 r + 1) <= pow2 (ilog2 r')) by (apply pow2_le; lia).
    lra.
Qed.

(** Rounding to binary64 keeps the order of non-negative values. *)
Lemma fl_mono (r r' : Q) : 0 <= r -> r <= r' -> fl r <= fl r'.
Proof.
  intros Hr Hle. unfold fl at 1.
  destruct (Qcompare_spec r 0) as [E | L | G].
  - apply fl_nonneg. lra.
  - lra.
  - unfold fl. destruct (Qcompare_spec r' 0) as [E' | L' | G'];
      [lra | lra | apply round_pos_mono; assumption].
Qed.

Lemma round_pos_ge_int (r : Q) (n : Z) :
  0 < r -> inject_Z n <= r -> r < pow2 53 -> inject_Z n <= round_pos r.
Proof.
  intros Hr Hn H53. destruct (ilog2_spec r Hr) as [Hlo _].
  assert (Hk : (ilog2 r <= 52)%Z).
  { destruct (Z_le_gt_dec (ilog2 r) 52) as [L | G]; [exact L|].
    exfalso. assert (pow2 53 <= pow2 (ilog2 r)) by (apply pow2_le; lia).
    lra. }
  unfold round_pos. set (e := (ilog2 r - 52)%Z) in *.
  pose proof (pow2_pos e) as He.
  assert (En : inject_Z n == inject_Z (n * 2 ^ (- e)) * pow2 e).
  { rewrite inject_Z_mult, <- (pow2_inject (- e)) by lia.
    unfold pow2. rewrite Qpower_opp. field.
    apply Qnot_eq_sym, Qlt_not_eq, pow2_pos. }
  rewrite En. apply Qmult_le_compat_r; [|apply Qlt_le_weak, He].
  rewrite <- Zle_Qle. apply round_half_even_ge.
  apply Qle_shift_div_l; [exact He|]. rewrite <- En. exact Hn.
Qed.

(** A positive integer below 2^53 is a binary64 value. *)
Lemma fl_integer (r : Q) (n : Z) :
  (0 < n)%Z -> inject_Z n < pow2 53 -> r == inject_Z n ->
  fl r == inject_Z n.
Proof.
  intros Hn H53 E.
  assert (Hr : 0 < r).
  { rewrite E. change 0 with (inject_Z 0). rewrite <- Zlt_Qlt. exact Hn. }
  unfold fl. destruct (Qcompare_spec r 0) as [E0 | L | G]; [lra | lra |].
  apply Qle_antisym.
  - apply round_pos_le_int; [exact Hr | lra | exact H53].
  - apply round_pos_ge_int; [exact Hr | lra | lra].
Qed.

Lemma percentage_mono (d d' t : nat) :
  (0 < t)%nat -> (d <= d')%nat ->
  (Math_round (fmul (fdiv (of_nat d) (of_nat t)) 100)
   <= Math_round (fmul (fdiv (of_nat d') (of_nat t)) 100))%Z.
Proof.
  intros Ht Hd. unfold fmul, fdiv, of_nat, Math_round.
  assert (Htq : 0 < inject_Z (Z.of_nat t)).
  { change 0 with (inject_Z 0). rewrite <- Zlt_Qlt. lia. }
  assert (Hdq : 0 <= inject_Z (Z.of_nat d)).
  { change 0 with (inject_Z 0). rewrite <- Zle_Qle. lia. }
  assert (Hle : inject_Z (Z.of_nat d) <= inject_Z (Z.of_nat d')).
  { rewrite <- Zle_Qle. lia. }
  assert (Hq0 : 0 <= inject_Z (Z.of_nat d) / inject_Z (Z.of_nat t)).
  { apply Qle_shift_div_l; [exact Htq|]. lra. }
  assert (Hq : inject_Z (Z.of_nat d) / inject_Z (Z.of_nat t)
               <= inject_Z (Z.of_nat d') / inject_Z (Z.of_nat t)).
  { apply Qmult_le_compat_r; [exact Hle|].
    apply Qlt_le_weak, Qinv_lt_0_compat, Htq. }
  pose proof (fl_nonneg _ Hq0) as Hx0.
  pose proof (fl_mono _ _ Hq0 Hq) as Hx.
  apply Qfloor_resp_le.
  assert (fl (fl (inject_Z (Z.of_nat d) / inject_Z (Z.of_nat t)) * 100)
          <= fl (fl (inject_Z (Z.of_nat d') / inject_Z (Z.of_nat t)) * 100)).
  { apply fl_mono; lra. }
  lra.
Qed.

Lemma percentage_full (t : nat) :
  (0 < t)%nat ->
  Math_round (fmul (fdiv (of_nat t) (of_nat t)) 100) = 100%Z.
Proof.
  intro Ht. unfold fmul, fdiv, of_nat, Math_round.
  assert (Htq : 0 < inject_Z (Z.of_nat t)).
  { change 0 with (inject_Z 0). rewrite <- Zlt_Qlt. lia. }
  assert (E1 : fl (inject_Z (Z.of_nat t) / inject_Z (Z.of_nat t))
               == inject_Z 1).
  { apply fl_integer; [lia | vm_compute; reflexivity|].
    change (inject_Z 1) with 1. field. lra. }
  assert (E2 : fl (fl (inject_Z (Z.of_nat t) / inject_Z (Z.of_nat t)) * 100)
               == inject_Z 100).
  { apply fl_integer; [lia | vm_compute; reflexivity|].
    rewrite E1. reflexivity. }
  rewrite E2. reflexivity.
Qed.

Lemma percentage_none (t : nat) :
  Math_round (fmul (fdiv (of_nat 0) (of_nat t)) 100) = 0%Z.
Proof.
  unfold fmul, fdiv, of_nat, Math_round.
  assert (E1 : fl (inject_Z (Z.of_nat 0) / inject_Z (Z.of_nat t)) = 0).
  { unfold fl.
    destruct (Qcompare_spec (inject_Z (Z.of_nat 0) / inject_Z (Z.of_nat t)) 0)
      as [E | L | G]; [reflexivity | |];
      exfalso; unfold Qdiv in *; simpl in *; rewrite Qmult_0_l in *;
      [apply (Qlt_irrefl 0 L) | apply (Qlt_irrefl 0 G)]. }
  rewrite E1. reflexivity.
Qed.

(** With at least one definition found, the coverage is 100 as soon as
    there are as many [Docstring:] markers as definitions, and 0 when
    there is no marker: the two ends of the scale are exact in binary64. *)
Theorem coverage_extremes (docs : string) :
  (0 < match_count re_function docs + match_count re_class docs)%nat ->
  ((match_count re_function docs + match_count re_class docs
    <= markerCount docs)%nat ->
   coverage (calculateCoverage docs) = 100%Z)
  /\ (markerCount docs = 0%nat -> coverage (calculateCoverage docs) = 0%Z).
Proof.
  intro Hpos. unfold calculateCoverage, markerCount. simpl.
  set (f := match_count re_function docs) in *.
  set (c := match_count re_class docs) in *.
  set (m := match_count re_docstring docs).
  apply Nat.ltb_lt in Hpos. rewrite Hpos. apply Nat.ltb_lt in Hpos. split.
  - intro Hm. rewrite (Nat.min_r m (f + c) Hm).
    apply percentage_full, Hpos.
  - intro Hm. rewrite Hm. simpl Nat.min. apply percentage_none.
Qed.

Lemma coverage_extremes_witness :
  (0 < match_count re_function Samples.documented_function
       + match_count re_class Samples.documented_function)%nat
  /\ coverage (calculateCoverage Samples.documented_function) = 100%Z.
Proof.
  split; [vm_compute; lia|].
  apply (coverage_extremes Samples.documented_function);
    vm_compute; lia.
Defined.

(** Between two documentation strings with the same numbers of function
    and class definitions, the one with more [Docstring:] markers never
    has the lower coverage. *)
Theorem coverage_monotone (docs docs' : string) :
  match_count re_function docs = match_count re_function docs' ->
  match_count re_class docs = match_count re_class docs' ->
  (markerCount docs <= markerCount docs')%nat ->
  (coverage (calculateCoverage docs) <= coverage (calculateCoverage docs'))%Z.
Proof.
  unfold calculateCoverage, markerCount. simpl. intros Hf Hc Hm.
  rewrite <- Hf, <- Hc.
  set (t := (match_count re_function docs + match_count re_class docs)%nat).
  destruct (Nat.ltb_spec 0 t) as [Hpos | Hzero]; [|lia].
  apply percentage_mono; [exact Hpos|].
  apply Nat.min_le_compat_r, Hm.
Qed.

Lemma coverage_monotone_witness :
  (markerCount Samples.bare_function
   <= markerCount Samples.documented_function)%nat
  /\ (coverage (calculateCoverage Samples.bare_function)
      <= coverage (calculateCoverage Samples.documented_function))%Z.
Proof.
  split; [vm_compute; lia|].
  apply (coverage_monotone Samples.bare_function
           Samples.documented_function).
  - vm_compute. reflexivity.
  - vm_compute. reflexivity.
  - vm_compute. lia.
Defined.

(** The figure shown as "Documented", documentedFunctions +
    documentedClasses, is never above the number of definitions found
    and never below the documented count the coverage is computed from;
    one marker is counted once for the functions and once for the
    classes, so the figure can be up to twice the number of markers. *)
Theorem documented_figure_bounds (docs : string) :
  let st := stats (calculateCoverage docs) in
  let total := (totalFunctions st + totalClasses st)%nat in
  let shown := (documentedFunctions st + documentedClasses st)%nat in
  (Nat.min (markerCount docs) total <= shown)%nat
  /\ (shown <= total)%nat
  /\ (shown <= 2 * markerCount docs)%nat.
Proof.
  unfold calculateCoverage, markerCount. simpl. lia.
Qed.

Example documented_figure_doubles :
  let st := stats (calculateCoverage Samples.class_and_function) in
  markerCount Samples.class_and_function = 1%nat
  /\ (documentedFunctions st + documentedClasses st = 2)%nat
  /\ coverage (calculateCoverage Samples.class_and_function) = 50%Z.
Proof. vm_compute. repeat split. Qed.

End CoverageFacts.

(** ** What a click on a recent file can do *)

(** ** The unit of a file size *)

Module RealFacts.
Import Reals Qreals.
Local Open Scope R_scope.

Lemma ln2_lt_1 : ln 2 < 1.
Proof.
  rewrite <- (ln_exp 1). apply ln_increasing; [Lra.lra|].
  pose proof (exp_ineq1 1). Lra.lra.
Qed.

Lemma ln_1024 : ln 1024 = 10 * ln 2.
Proof.
  replace 1024 with (2 ^ 10) by Lra.lra.
  rewrite ln_pow by Lra.lra. simpl INR. Lra.lra.
Qed.

Lemma ln_le (x y : R) : 0 < x -> x <= y -> ln x <= ln y.
Proof.
  intros Hx [H | H].
  - left. apply ln_increasing; assumption.
  - subst. right. reflexivity.
Qed.

(** The logarithm one byte below a gibibyte. *)
Lemma ln_top : ln (2 ^ 30 - 1) <= 30 * ln 2 - / 2 ^ 30.
Proof.
  assert (Hs : / 2 ^ 30 < 1)
    by (rewrite <- Rinv_1; apply Rinv_lt_contravar; Lra.lra).
  replace (2 ^ 30 - 1) with (2 ^ 30 * (1 - / 2 ^ 30)) by (field; Lra.lra).
  rewrite ln_mult; [| apply pow_lt; Lra.lra | Lra.lra].
  rewrite ln_pow by Lra.lra.
  assert (H : ln (1 - / 2 ^ 30) <= - / 2 ^ 30).
  { rewrite <- (ln_exp (- / 2 ^ 30)). apply ln_le; [Lra.lra|].
    pose proof (exp_ineq1_le (- / 2 ^ 30)). Lra.lra. }
  simpl INR. Lra.lra.
Qed.

(** The quotient of the logarithms, for a size from two bytes to one byte
    below a gibibyte. *)
Lemma log_ratio_bounds (b : Z) :
  (2 <= b < 1024 ^ 3)%Z ->
  / 10 <= ln (IZR b) / ln 1024 <= 3 - / (10 * 2 ^ 30).
Proof.
  intros [Hlo Hhi].
  pose proof ln_lt_2 as Ht. pose proof ln2_lt_1 as Ht1.
  assert (Hy1 : ln 2 <= ln (IZR b)).
  { apply ln_le; [Lra.lra|]. apply IZR_le. exact Hlo. }
  assert (Hy2 : ln (IZR b) <= 30 * ln 2 - / 2 ^ 30).
  { eapply Rle_trans; [|apply ln_top]. apply ln_le.
    - apply IZR_lt. lia.
    - replace (2 ^ 30 - 1) with (IZR (1024 ^ 3 - 1)).
      + apply IZR_le. lia.
      + simpl. Lra.lra. }
  rewrite ln_1024.
  set (y := ln (IZR b)) in *. set (t := ln 2) in *.
  assert (He : 0 < / 2 ^ 30) by (apply Rinv_0_lt_compat; Lra.lra).
  split.
  - apply Rmult_le_reg_r with (10 * t); [Lra.lra|].
    replace (y / (10 * t) * (10 * t)) with y by (field; Lra.lra). Lra.lra.
  - apply Rmult_le_reg_r with (10 * t); [Lra.lra|].
    replace (y / (10 * t) * (10 * t)) with y by (field; Lra.lra).
    replace ((3 - / (10 * 2 ^ 30)) * (10 * t)) with (30 * t - / 2 ^ 30 * t)
      by (field; Lra.lra).
    assert (/ 2 ^ 30 * t <= / 2 ^ 30) by Lra.nra. Lra.lra.
Qed.

Lemma Rabs_bound (x e : R) : Rabs x <= e -> - e <= x <= e.
Proof.
  unfold Rabs. destruct (Rcase_abs x); intro; Lra.lra.
Qed.

End RealFacts.

Module FileSizeFacts.
Import Str Js Binary64 Binary64Facts CoverageFacts FileSize.
Import Reals Qreals RealFacts.
Local Open Scope Q_scope.

Lemma Q2R_cap : Q2R quotient_cap = (3 - / 2 ^ 34)%R.
Proof. unfold Q2R, quotient_cap. simpl. Lra.lra. Qed.

Lemma Q2R_zero : Q2R 0 = 0%R.
Proof. unfold Q2R. simpl. Lra.lra. Qed.

Lemma fl_cap : fl quotient_cap < 3.
Proof. vm_compute. reflexivity. Qed.

Section Index.
Variable Math_log : Z -> Q.
Hypothesis log_k : 0 < Math_log k.

(** The quotient an accurate [Math.log] gives, before it is rounded. *)
Lemma quotient_bounds (b : Z) :
  (2 <= b < 1024 ^ 3)%Z -> log_accurate Math_log b ->
  0 <= Math_log b / Math_log k <= quotient_cap.
Proof.
  intros Hb Hacc. unfold log_accurate in Hacc.
  pose proof (log_ratio_bounds b Hb) as [Hlo Hhi].
  change (IZR k) with 1024%R in Hacc.
  apply Rabs_bound in Hacc. destruct Hacc as [Ha Hb'].
  assert (Hk : ~ Math_log k == 0) by lra.
  assert (He : (0 < / 2 ^ 30)%R) by (apply Rinv_0_lt_compat; Lra.lra).
  assert (E40 : (/ 2 ^ 40 = / 2 ^ 30 * / 1024)%R) by field.
  assert (E34 : (/ 2 ^ 34 = / 2 ^ 30 * / 16)%R) by field.
  assert (E10 : (/ (10 * 2 ^ 30) = / 2 ^ 30 * / 10)%R) by field.
  split; apply Rle_Qle; rewrite Q2R_div by exact Hk.
  - rewrite Q2R_zero. Lra.lra.
  - rewrite Q2R_cap. Lra.lra.
Qed.

Lemma unit_index_bounds (b : Z) :
  (1 <= b < 1024 ^ 3)%Z -> Math_log 1 == 0 -> log_accurate Math_log b ->
  (0 <= unit_index Math_log b <= 2)%Z.
Proof.
  intros Hb H1 Hacc. unfold unit_index, Math_floor, fdiv.
  assert (Hq : 0 <= Math_log b / Math_log k <= quotient_cap).
  { destruct (Z.eq_dec b 1) as [-> | Hn].
    - unfold Qdiv. rewrite H1. split; [lra | vm_compute; discriminate].
    - apply quotient_bounds; [lia | exact Hacc]. }
  destruct Hq as [Hq0 Hq1].
  pose proof (fl_nonneg _ Hq0) as Hf0.
  pose proof (fl_mono _ _ Hq0 Hq1) as Hf1.
  pose proof fl_cap as Ht.
  split.
  - change 0%Z with (Qfloor 0). apply Qfloor_resp_le. exact Hf0.
  - pose proof (Qfloor_le (fl (Math_log b / Math_log k))) as Hfl.
    assert (H3 : inject_Z (Qfloor (fl (Math_log b / Math_log k)))
                 < inject_Z 3).
    { change (inject_Z 3) with 3. lra. }
    rewrite <- Zlt_Qlt in H3. lia.
Qed.

End Index.

Lemma sizes_at_table (i : Z) :
  (0 <= i <= 2)%Z -> exists unit, In unit sizes /\ sizes_at i = Some unit.
Proof.
  intro Hi.
  assert (E : i = 0%Z \/ i = 1%Z \/ i = 2%Z) by lia.
  destruct E as [-> | [-> | ->]]; eexists; (split; [|reflexivity]);
    simpl; tauto.
Qed.

Lemma log_table_accurate : log_accurate log_table 1024.
Proof.
  unfold log_accurate, log_table, k. simpl Z.eqb. cbv iota.
  assert (Hc : Q2R (7804143460206699 # 1125899906842624) <> 0%R).
  { unfold Q2R. simpl. Lra.lra. }
  assert (Hl : ln 1024 <> 0%R).
  { rewrite ln_1024. pose proof ln_lt_2. Lra.lra. }
  replace (_ - _)%R with 0%R by (field; split; assumption).
  rewrite Rabs_R0. left. apply Rinv_0_lt_compat. Lra.lra.
Qed.

(** C10. For a byte count from 0 to one below [1024^3], and a [Math.log]
    that is positive at 1024, zero at 1 and accurate at the count,
    [formatFileSize] ends with a unit from the table B, KB, MB: the count 0
    gives exactly [0 B]; from 1 on, the unit index is 0, 1 or 2, the table
    has a unit at that index, and the result is the quotient rounded to
    one decimal, a space and that unit. *)
Theorem size_unit_from_table
    (Number_toString : Q -> string) (Math_log : Z -> Q)
    (Math_pow : Z -> Z -> Q) (b : Z) :
  (0 <= b < 1024 ^ 3)%Z ->
  0 < Math_log k ->
  Math_log 1%Z == 0 ->
  ((1 <= b)%Z -> log_accurate Math_log b) ->
  ((1 <= b)%Z -> 0 < Math_pow k (unit_index Math_log b)) ->
  (b = 0%Z -> formatFileSize Number_toString Math_log Math_pow b = "0 B")
  /\ ((1 <= b)%Z ->
      (0 <= unit_index Math_log b <= 2)%Z
      /\ exists tenths unit,
           In unit sizes
           /\ sizes_at (unit_index Math_log b) = Some unit
           /\ tenths = toFixed1 (fdiv (inject_Z b)
                                   (Math_pow k (unit_index Math_log b)))
           /\ formatFileSize Number_toString Math_log Math_pow b
              = (Number_toString (parseFloat_tenths tenths) ++ " " ++ unit)
                  %string).
Proof.
  intros Hb Hk H1 Hacc _. split.
  - intros ->. reflexivity.
  - intro Hpos.
    assert (Hi : (0 <= unit_index Math_log b <= 2)%Z).
    { apply unit_index_bounds; [exact Hk | lia | exact H1 | auto]. }
    split; [exact Hi|].
    destruct (sizes_at_table _ Hi) as (unit & Hin & Hu).
    exists (toFixed1 (fdiv (inject_Z b) (Math_pow k (unit_index Math_log b)))).
    exists unit. repeat split; try assumption.
    unfold formatFileSize.
    destruct (Z.eqb_spec b 0) as [E | _]; [lia|].
    cbv zeta. rewrite Hu. reflexivity.
Qed.

Lemma size_unit_from_table_witness :
  (0 <= 1024 < 1024 ^ 3)%Z
  /\ 0 < log_table k
  /\ log_table 1 == 0
  /\ ((1 <= 1024)%Z -> log_accurate log_table 1024)
  /\ ((1 <= 1024)%Z -> 0 < exact_pow k (unit_index log_table 1024))
  /\ formatFileSize decimal log_table exact_pow 1024 = "1 KB"%string.
Proof.
  assert (Hb : (0 <= 1024 < 1024 ^ 3)%Z) by
    (vm_compute; split; [discriminate | reflexivity]).
  assert (Hk : 0 < log_table k) by (vm_compute; reflexivity).
  assert (H1 : log_table 1 == 0) by (vm_compute; reflexivity).
  assert (Hacc : (1 <= 1024)%Z -> log_accurate log_table 1024)
    by (intros _; exact log_table_accurate).
  assert (Hp : (1 <= 1024)%Z -> 0 < exact_pow k (unit_index log_table 1024))
    by (intros _; vm_compute; reflexivity).
  repeat (split; [assumption|]).
  destruct (size_unit_from_table decimal log_table exact_pow 1024
              Hb Hk H1 Hacc Hp) as [_ H].
  destruct H as [_ (tenths & unit & _ & Hu & Ht & Hf)];
    [vm_compute; discriminate|].
  rewrite Hf, Ht.
  vm_compute in Hu. injection Hu as <-.
  vm_compute. reflexivity.
Defined.

End FileSizeFacts.


Module ClickFacts.
Import Str Js RecentFiles Actions.

Lemma get_ok_opt (v : jsval) (name : string) (x : jsval) :
  get v name = Ok x -> get_opt v name = x.
Proof.
  destruct v as [[| | | | |props]|]; simpl; intro H;
    try discriminate; inversion H; reflexivity.
Qed.

Ltac walk H :=
  repeat (cbn [In] in H;
          match type of H with
          | _ \/ _ => destruct H as [H | H]; [try discriminate H|]
          | False => contradiction
          | In _ (match ?x with _ => _ end) => destruct x eqn:?
          | In _ (if ?b then _ else _) => destruct b eqn:?
          end).

(** [onFileSelect] is called only at the end of the one successful path:
    the cached file was served, the parse request was answered with
    [ok] and without a truthy [error], and the documentation and the
    language handed over are those of that answer; the file handed over
    carries the name the server gave, and the whole click is the two
    requests followed by the call. *)
Theorem select_only_after_successful_parse
  (Number_toString : Q -> string) (file : Entry) (net : Network)
  (f : App.File) (docs lang : jsval) :
  In (OnFileSelect f docs lang) (handleFileClick Number_toString file net) ->
  exists data parseData,
    cached net = App.Body true data
    /\ parsed net = App.Body true parseData
    /\ truthy_opt (get_opt (Some parseData) "error") = false
    /\ docs = get_opt (Some parseData) "markdown_content"
    /\ lang = get_opt (Some parseData) "language"
    /\ get_opt (Some data) "filename" = Some (Str (App.name f))
    /\ handleFileClick Number_toString file net
       = [Fetch "GET" (API_BASE_URL ++ "/files/" ++ file_id file);
          Fetch "POST" (API_BASE_URL ++ "/parse-code/");
          OnFileSelect f docs lang].
Proof.
  unfold handleFileClick, regenerate, loadFailed, regenerateFailed.
  intro H. walk H.
  all: inversion H; subst.
  all: repeat match goal with
              | E : get _ _ = Ok _ |- _ => apply get_ok_opt in E
              end.
  all: eexists; eexists; repeat split; try reflexivity; try congruence.
  all: simpl; assumption.
Qed.

Lemma select_only_after_successful_parse_witness :
  In (OnFileSelect (App.mkFile "Tool.PY" "text/x-python" "x = 1")
        (Some (Str "# Tool")) (Some (Str "python")))
     (handleFileClick decimal script serving)
  /\ exists data parseData,
       cached serving = App.Body true data
       /\ parsed serving = App.Body true parseData.
Proof.
  assert (H : In (OnFileSelect (App.mkFile "Tool.PY" "text/x-python" "x = 1")
                    (Some (Str "# Tool")) (Some (Str "python")))
                 (handleFileClick decimal script serving)).
  { vm_compute. right. right. left. reflexivity. }
  split; [exact H|].
  destruct (select_only_after_successful_parse decimal script serving _ _ _ H)
    as [data [parseData [E1 [E2 _]]]].
  exists data, parseData. split; assumption.
Defined.

Ltac cases :=
  repeat match goal with
         | |- context [match ?x with _ => _ end] => destruct x eqn:?
         | |- context [if ?b then _ else _] => destruct b eqn:?
         end.

(** A click ends in at most one of: an alert, a download, a call of
    [onFileSelect]; and it makes at most two requests. *)
Theorem one_outcome_per_click
  (Number_toString : Q -> string) (file : Entry) (net : Network) :
  let actions := handleFileClick Number_toString file net in
  (count is_alert actions + count is_download actions
   + count is_select actions <= 1)%nat
  /\ (count is_request actions <= 2)%nat.
Proof.
  unfold handleFileClick, regenerate, loadFailed, regenerateFailed, count.
  cbv zeta. cases; simpl; lia.
Qed.

(** [getFileType] answers [text/plain] exactly for the extensions the
    click handler does not regenerate documentation for. *)
Theorem plain_type_iff_unsupported (name ext : string) :
  extension name = Some ext ->
  (getFileType name = Some "text/plain" <-> includes supported ext = false).
Proof.
  intro H. unfold getFileType. rewrite H. unfold includes, supported.
  simpl. destruct (String.eqb ext "py"); [split; discriminate|].
  destruct (String.eqb ext "java"); [split; discriminate|].
  destruct (String.eqb ext "js"); [split; discriminate|].
  destruct (String.eqb ext "jsx"); [split; discriminate|].
  split; reflexivity.
Qed.

Lemma plain_type_iff_unsupported_witness :
  extension "notes.TXT" = Some "txt"
  /\ (getFileType "notes.TXT" = Some "text/plain"
      <-> includes supported "txt" = false).
Proof.
  split; [reflexivity|].
  apply (plain_type_iff_unsupported "notes.TXT" "txt"). reflexivity.
Defined.

Lemma lower_char_idempotent (c : ascii) :
  lower_char (lower_char c) = lower_char c.
Proof. destruct c as [[] [] [] [] [] [] [] []]; reflexivity. Qed.

Lemma lower_char_dot (c : ascii) :
  Ascii.eqb (lower_char c) "." = Ascii.eqb c ".".
Proof. destruct c as [[] [] [] [] [] [] [] []]; reflexivity. Qed.

Lemma toLowerCase_idempotent (s : string) :
  toLowerCase (toLowerCase s) = toLowerCase s.
Proof.
  induction s as [|c s IH]; simpl; [reflexivity|].
  rewrite lower_char_idempotent, IH. reflexivity.
Qed.

Lemma split_toLowerCase (s : string) :
  split "." (toLowerCase s) = map toLowerCase (split "." s).
Proof.
  induction s as [|c s IH]; simpl; [reflexivity|].
  rewrite lower_char_dot, IH.
  destruct (Ascii.eqb c "."); [reflexivity|].
  destruct (split "." s); reflexivity.
Qed.

Lemma pop_map (f : string -> string) (l : list string) :
  pop (map f l) = option_map f (pop l).
Proof.
  unfold pop. rewrite <- map_rev. destruct (rev l); reflexivity.
Qed.

(** For an ASCII file name, the extension and the MIME type do not
    depend on the case of the letters of the name. *)
Theorem extension_ignores_case (name : string) :
  Text.ascii_only name = true ->
  extension (toLowerCase name) = extension name
  /\ getFileType (toLowerCase name) = getFileType name.
Proof.
  intros _.
  assert (E : extension (toLowerCase name) = extension name).
  { unfold extension. rewrite split_toLowerCase, pop_map.
    destruct (pop (split "." name)); simpl; [|reflexivity].
    rewrite toLowerCase_idempotent. reflexivity. }
  split; [exact E|]. unfold getFileType. rewrite E. reflexivity.
Qed.

Lemma extension_ignores_case_witness :
  Text.ascii_only "Main.JAVA" = true
  /\ extension "main.java" = extension "Main.JAVA"
  /\ getFileType "main.java" = getFileType "Main.JAVA".
Proof.
  split; [reflexivity|].
  apply (extension_ignores_case "Main.JAVA"). reflexivity.
Defined.

End ClickFacts.

(** ** The suggestions panel on other inputs *)

Module PanelFacts.
Import Str Js Dom Suggestions ClickFacts.

(** The icon does not depend on the case of the letters of the type. *)
Theorem icon_ignores_case (type : string) :
  getSuggestionIcon (Some (Str (toLowerCase type)))
  = getSuggestionIcon (Some (Str type)).
Proof.
  simpl. rewrite toLowerCase_idempotent. reflexivity.
Qed.

Lemma items_with_null (Number_toString : Q -> string)
  (before after : list value) :
  forall index,
    items Number_toString index (before ++ Null :: after) = None.
Proof.
  induction before as [|x l IH]; intro index; simpl.
  - reflexivity.
  - rewrite IH. destruct (item Number_toString index x); reflexivity.
Qed.

(** One [null] among the suggestions makes the whole panel throw once it
    is no longer loading, whatever the other suggestions are; while
    loading the list is not looked at and the panel renders. *)
Theorem null_suggestion_breaks_panel
  (Number_toString : Q -> string) (before after : list value) :
  Suggestions.Suggestions Number_toString (before ++ Null :: after) false
  = None
  /\ exists n,
       Suggestions.Suggestions Number_toString (before ++ Null :: after)
         true = Some n.
Proof.
  unfold Suggestions.Suggestions.
  assert (H : (0 <? List.length (before ++ Null :: after))%nat = true).
  { apply Nat.ltb_lt. rewrite length_app. simpl. lia. }
  rewrite H. split.
  - rewrite items_with_null. reflexivity.
  - eexists. reflexivity.
Qed.

End PanelFacts.

(** ** The two outcomes of an upload *)

Module OutcomeFacts.
Import Str Js App CodeUpload UploadFacts.

Lemma get_ok_opt_error (data flag : jsval) :
  get data "error" = Ok flag -> get_opt data "error" = flag.
Proof.
  destruct data as [[| | | | |props]|]; simpl; intro H;
    try discriminate; inversion H; reflexivity.
Qed.

(** Every text of the [catch] block is a non-empty string. *)
Lemma rejection_truthy (Number_toString : Q -> string) (e : AxiosError) :
  truthy (Str (rejection Number_toString e)) = true.
Proof.
  unfold rejection.
  repeat match goal with
         | |- context [match ?x with _ => _ end] => destruct x
         | |- context [if ?b then _ else _] => destruct b
         end; reflexivity.
Qed.

Lemma or_else_truthy (a b : jsval) :
  truthy_opt b = true -> truthy_opt (or_else a b) = true.
Proof.
  intro H. unfold or_else. destruct (truthy_opt a) eqn:E; assumption.
Qed.

(** [handleFileUpload] installs the file, the documentation and the
    language it is given and counts one refresh, whatever the answer to
    the suggestion request. *)
Lemma handleFileUpload_installs (suggested : fetched) (file : File)
  (docs lang : jsval) (st : State) :
  let st' := handleFileUpload suggested file docs lang st in
  uploadedFile st' = Some file
  /\ generatedDocs st' = docs
  /\ language st' = lang
  /\ refreshRecentFiles st' = S (refreshRecentFiles st)
  /\ isLoading st' = isLoading st
  /\ isDarkMode st' = isDarkMode st.
Proof.
  cbv zeta. unfold handleFileUpload, generateSuggestions.
  destruct suggested as [|ok|ok [| | | | |props]]; simpl;
    try destruct (truthy_opt (lookup "suggestions" props)); simpl;
    repeat split; try reflexivity; lia.
Qed.

(** An upload has two outcomes and no third.  Either an error text is
    set, and then it is not empty and the state of the application is
    the one before (the loading flag apart); or the error text is empty,
    and then the file, the documentation and the language of the answer
    are installed and the recent-files list is refreshed once.  In both
    the loading flag is down at the end. *)
Theorem upload_outcome
  (Number_toString : Q -> string) (suggested : fetched)
  (file : File) (rest : list File) (answer : posted) (err : jsval)
  (st : State) :
  let after :=
    handleFiles Number_toString State (handleFileUpload suggested)
      handleLoading (file :: rest) answer (err, st) in
  isLoading (snd after) = false
  /\ ((truthy_opt (fst after) = true
       /\ snd after = handleLoading false (handleLoading true st))
      \/ (fst after = Some (Str EmptyString)
          /\ uploadedFile (snd after) = Some file
          /\ refreshRecentFiles (snd after) = S (refreshRecentFiles st)
          /\ exists data,
               answer = Resolved data
               /\ truthy_opt (get_opt data "error") = false
               /\ generatedDocs (snd after) = get_opt data "markdown_content"
               /\ language (snd after) = get_opt data "language")).
Proof.
  cbv zeta. unfold handleFiles. destruct answer as [data | e].
  - destruct (get data "error") as [flag | ex] eqn:Hget.
    + pose proof (get_ok_opt_error data flag Hget) as Hopt.
      rewrite (get_defined data "error" "message" flag Hget).
      rewrite (get_defined data "error" "markdown_content" flag Hget).
      rewrite (get_defined data "error" "language" flag Hget).
      destruct (truthy_opt flag) eqn:Hflag; simpl.
      * split; [reflexivity|]. left. split; [|reflexivity].
        apply or_else_truthy. reflexivity.
      * split; [reflexivity|]. right.
        destruct (handleFileUpload_installs suggested file
                    (get_opt data "markdown_content")
                    (get_opt data "language") (handleLoading true st))
          as [H1 [H2 [H3 [H4 _]]]].
        split; [reflexivity|]. split; [exact H1|]. split; [exact H4|].
        exists data. repeat split.
        -- rewrite Hopt. exact Hflag.
        -- exact H2.
        -- exact H3.
    + simpl. split; [reflexivity|]. left. split; reflexivity.
  - simpl. split; [reflexivity|]. left. split; [|reflexivity].
    apply rejection_truthy.
Qed.

(** The suggestions cell never becomes falsy: after an upload it holds
    the truthy [suggestions] of the answer, the empty array, or what it
    held before, so the panel can always read its [length]. *)
Theorem suggestions_stay_truthy (suggested : fetched) (file : File)
  (docs lang : jsval) (st : State) :
  truthy_opt (suggestions st) = true ->
  let st' := handleFileUpload suggested file docs lang st in
  truthy_opt (suggestions st') = true
  /\ (suggestions st' = suggestions st
      \/ suggestions st' = Some (Arr [])
      \/ exists data ok,
           suggested = Body ok data
           /\ suggestions st' = get_opt (Some data) "suggestions").
Proof.
  intro Hinv. cbv zeta. unfold handleFileUpload, generateSuggestions.
  destruct suggested as [|ok|ok [| | | | |props]]; simpl;
    try (split; [reflexivity | right; left; reflexivity]);
    try (split; [exact Hinv | left; reflexivity]).
  destruct (truthy_opt (lookup "suggestions" props)) eqn:E; simpl.
  - split; [exact E|]. right. right. eexists. eexists.
    split; reflexivity.
  - split; [exact Hinv | left; reflexivity].
Qed.

Lemma suggestions_stay_truthy_witness :
  truthy_opt (suggestions showing_earlier) = true
  /\ truthy_opt
       (suggestions
          (handleFileUpload no_suggestions_field second second_docs None
             showing_earlier)) = true.
Proof.
  split; [reflexivity|].
  apply (suggestions_stay_truthy no_suggestions_field second second_docs
           None showing_earlier).
  reflexivity.
Defined.

End OutcomeFacts.

(** ** The recent-files list *)

Module RecentListFacts.
Import Str Js RecentList.

(** After [fetchRecentFiles] the loading flag is down and the list is
    still truthy, so its [length] can be read.  Either the error text is
    empty, the request was answered [ok] with a body that is not [null],
    and the list is the [recent_files] of the body (the empty array when
    that is missing or falsy); or an error text is set and the list is
    the one before. *)
Theorem fetch_outcome (answer : App.fetched) (st : State) :
  truthy_opt (recentFiles st) = true ->
  let st' := fetchRecentFiles answer st in
  isLoading st' = false
  /\ truthy_opt (recentFiles st') = true
  /\ ((error st' = EmptyString
       /\ exists data,
            answer = App.Body true data
            /\ data <> Null
            /\ recentFiles st'
               = or_else (get_opt (Some data) "recent_files")
                         (Some (Arr [])))
      \/ (error st' <> EmptyString /\ recentFiles st' = recentFiles st)).
Proof.
  intro Hinv. cbv zeta. unfold fetchRecentFiles.
  destruct answer as [|ok|[|] data]; simpl;
    try (split; [reflexivity|]; split; [exact Hinv|];
         right; split; [discriminate | reflexivity]).
  destruct data as [| | | | |props]; simpl.
  1: split; [reflexivity|]; split; [exact Hinv|];
     right; split; [discriminate | reflexivity].
  all: split; [reflexivity|]; split;
       [unfold or_else; simpl;
        try destruct (truthy_opt (lookup "recent_files" props)) eqn:E;
        try assumption; reflexivity|];
       left; split; [reflexivity|]; eexists; split; [reflexivity|];
       split; [discriminate | reflexivity].
Qed.

Lemma fetch_outcome_witness :
  truthy_opt (recentFiles initial) = true
  /\ recentFiles (fetchRecentFiles (App.Body true (Obj [])) initial)
     = Some (Arr []).
Proof.
  split; [reflexivity|].
  destruct (fetch_outcome (App.Body true (Obj [])) initial)
    as [_ [_ [[_ [data [E [_ H]]]] | [H _]]]].
  - reflexivity.
  - rewrite H. inversion E. reflexivity.
  - exfalso. apply H. reflexivity.
Defined.

End RecentListFacts.

(** ** The names of the exported files *)

Module ExportFacts.
Import Str Js Text ExportNames.

Lemma first_segment (sep : ascii) (s : string) :
  exists h rest,
    hd_error (split sep s) = Some h
    /\ occurs sep h = false
    /\ s = h ++ rest
    /\ (rest = EmptyString \/ exists r, rest = String sep r).
Proof.
  induction s as [|c s IH]; simpl.
  - exists EmptyString, EmptyString. repeat split. left. reflexivity.
  - destruct (Ascii.eqb_spec c sep) as [E | NE].
    + subst c. exists EmptyString, (String sep s). repeat split.
      right. exists s. reflexivity.
    + destruct IH as [h [rest [Hh [Ho [Hs Hr]]]]].
      destruct (split sep s) as [|w ws]; [discriminate Hh|].
      simpl in Hh. inversion Hh; subst w.
      exists (String c h), rest. simpl.
      apply Ascii.eqb_neq in NE. rewrite NE, Ho.
      repeat split; [rewrite <- Hs; reflexivity | exact Hr].
Qed.

(** The exported file is named after the part of the file name before
    its first dot: the name is that part, which holds no dot, followed by
    nothing or by the dot and the rest, and the base of the exported name
    is that part, or [documentation] when the part is empty or there is
    no file.  So the base is never empty and holds no dot, and
    everything from the first dot on is lost. *)
Theorem export_name_base (name : string) :
  (exists stem rest,
     name = stem ++ rest
     /\ occurs "." stem = false
     /\ (rest = EmptyString \/ exists r, rest = String "." r)
     /\ base (Some name)
        = match stem with
          | EmptyString => "documentation"
          | _ => stem
          end)
  /\ base None = "documentation"
  /\ base (Some name) <> EmptyString
  /\ occurs "." (base (Some name)) = false
  /\ markdownName (Some name) = base (Some name) ++ ".md"
  /\ htmlName (Some name) = base (Some name) ++ ".html".
Proof.
  destruct (first_segment "." name) as [h [rest [Hh [Ho [Hs Hr]]]]].
  assert (B : base (Some name)
              = match h with
                | EmptyString => "documentation"
                | _ => h
                end).
  { unfold base, stem. rewrite Hh. reflexivity. }
  split; [exists h, rest; repeat split; assumption|].
  split; [reflexivity|]. unfold markdownName, htmlName. rewrite B.
  destruct h as [|c h]; repeat split;
    try discriminate; try reflexivity; exact Ho.
Qed.

Example export_names :
  markdownName (Some "archive.tar.gz") = "archive.md"
  /\ htmlName (Some ".gitignore") = "documentation.html"
  /\ markdownName None = "documentation.md".
Proof. repeat split. Qed.

End ExportFacts.

(** ** A heading line *)

Module HeadingFacts.
Import Str Regex Js Text Lines FormatFacts.

(** On one line, the rest of the line is what [(.*$)] captures. *)
Lemma rest_of_line (s : string) :
  single_line s = true ->
  forall prev,
    match_here [Star true is_dot true; Eol] prev s
    = Some (s, String.length s).
Proof.
  induction s as [|a s IH]; intros Hs prev.
  - reflexivity.
  - simpl in Hs. apply andb_true_iff in Hs. destruct Hs as [Ha Hs].
    specialize (IH Hs (Some a)).
    cbn [match_here] in IH |- *. rewrite Ha.
    cbn [match_here] in IH. rewrite IH. reflexivity.
Qed.

(** Once a match has taken the whole rest of the string, the scan ends. *)
Lemma scan_skips (pat : pattern) (s : string) :
  match_here pat None EmptyString = None ->
  (forall prev, match_here pat (Some prev) EmptyString = None) ->
  forall prev, scan pat prev (String.length s) s = [].
Proof.
  intros H0 H1. induction s as [|a s IH]; intro prev; simpl.
  - destruct prev as [c|]; [rewrite H1 | rewrite H0]; reflexivity.
  - apply IH.
Qed.

(** Inside a line an anchored pattern finds nothing. *)
Lemma scan_inside_line (pat : pattern) (s : string) :
  single_line s = true ->
  forall prev, inside_line prev -> scan (Bol :: pat) prev 0 s = raws s.
Proof.
  induction s as [|a s IH]; intros Hs prev Hp;
    destruct prev as [c|]; try contradiction; simpl in Hp.
  - simpl. rewrite Hp. reflexivity.
  - simpl in Hs. apply andb_true_iff in Hs. destruct Hs as [Ha Hs].
    cbn [scan match_here at_bol]. rewrite Hp.
    rewrite (IH Hs (Some a)); [reflexivity|].
    simpl. unfold is_dot in Ha. apply negb_true_iff in Ha. exact Ha.
Qed.

(** On one line an anchored pattern that does not match at the start
    changes nothing. *)
Lemma replace_anchored_no_match (pat : pattern) (tpl : string -> string)
  (s : string) :
  single_line s = true ->
  match_here (Bol :: pat) None s = None ->
  replace_all (Bol :: pat) tpl s = s.
Proof.
  intros Hs Hm. unfold replace_all. destruct s as [|a s].
  - cbn [scan]. rewrite Hm. reflexivity.
  - cbn [scan]. rewrite Hm.
    simpl in Hs. apply andb_true_iff in Hs. destruct Hs as [Ha Hs].
    rewrite (scan_inside_line pat s Hs (Some a)).
    + simpl. rewrite render_raws. reflexivity.
    + simpl. unfold is_dot in Ha. apply negb_true_iff in Ha. exact Ha.
Qed.

Lemma append_empty (s : string) : s ++ EmptyString = s.
Proof. induction s as [|a s IH]; simpl; [|rewrite IH]; reflexivity. Qed.

Lemma single_line_append (s t : string) :
  single_line (s ++ t) = single_line s && single_line t.
Proof.
  induction s as [|a s IH]; simpl; [reflexivity|].
  rewrite IH. apply andb_assoc.
Qed.

(** A text that is one heading line, [# ] followed by an ASCII title
    without markup characters and line terminators, becomes exactly one
    [h1] element around the title: the seven later replacements leave
    the element alone. *)
Theorem heading_line (title : string) :
  ascii_only title = true ->
  plain title = true ->
  single_line title = true ->
  Documentation.formatContent (Some (Str ("# " ++ title)))
  = Ok (Documentation.wrap "h1" "doc-h1" title).
Proof.
  intros _ Hp Hl.
  assert (H1 : occurs "#" title = false) by (apply plain_occurs; auto).
  assert (H2 : occurs "*" title = false) by (apply plain_occurs; auto).
  assert (H3 : occurs "`" title = false) by (apply plain_occurs; auto).
  assert (H5 : occurs LF title = false) by (apply plain_occurs; auto).
  set (out := Documentation.wrap "h1" "doc-h1" title).
  assert (S1 : replace_all (Documentation.re_line "# ")
                 (Documentation.wrap "h1" "doc-h1") ("# " ++ title) = out).
  { unfold replace_all, Documentation.re_line.
    cbn [scan lits app append].
    assert (M : match_here
                  (Bol :: Lit "#" :: Lit " "
                   :: [Star true is_dot true; Eol]) None
                  (String "#" (String " " title))
                = Some (title, S (S (String.length title)))).
    { cbn [match_here at_bol Ascii.eqb Bool.eqb consume].
      rewrite (rest_of_line title Hl). reflexivity. }
    rewrite M. cbn [scan].
    rewrite (scan_skips _ title);
      [unfold out; cbn [render]; apply append_empty
      | reflexivity
      | intro c; simpl; destruct (is_line_terminator c); reflexivity]. }
  assert (O : forall c, occurs c title = false ->
                        occurs c "<h1 class=" = false ->
                        occurs c Str.dq = false ->
                        occurs c "doc-h1" = false ->
                        occurs c "></h1>" = false ->
                        occurs c out = false).
  { intros c Ht A B C D. unfold out, Documentation.wrap.
    repeat rewrite occurs_append. simpl in A, B, C, D |- *.
    repeat (apply orb_false_iff in A; destruct A as [? A]).
    repeat (apply orb_false_iff in B; destruct B as [? B]).
    repeat (apply orb_false_iff in C; destruct C as [? C]).
    repeat (apply orb_false_iff in D; destruct D as [? D]).
    repeat match goal with H : _ = false |- _ => rewrite H end.
    reflexivity. }
  assert (L : single_line out = true).
  { unfold out, Documentation.wrap.
    repeat rewrite single_line_append. rewrite Hl. reflexivity. }
  assert (O1 : occurs "#" out = false) by (apply O; auto).
  assert (O2 : occurs "*" out = false) by (apply O; auto).
  assert (O3 : occurs "`" out = false) by (apply O; auto).
  assert (O5 : occurs LF out = false) by (apply O; auto).
  assert (R : Documentation.replacements ("# " ++ title) = out).
  { unfold Documentation.replacements. rewrite S1.
    rewrite (replace_without_first "#" _ _ out)
      by (first [assumption | reflexivity]).
    rewrite (replace_without_first "#" _ _ out)
      by (first [assumption | reflexivity]).
    rewrite (replace_without_first "*" _ _ out)
      by (first [assumption | reflexivity]).
    rewrite (replace_without_first "*" _ _ out)
      by (first [assumption | reflexivity]).
    rewrite (replace_without_first "`" _ _ out)
      by (first [assumption | reflexivity]).
    change (Documentation.re_line "- ")
      with (Bol :: [Lit "-"; Lit " "; Star true is_dot true; Eol]).
    rewrite (replace_anchored_no_match _ _ out L) by reflexivity.
    apply (replace_without_first LF); [reflexivity | exact O5]. }
  unfold Documentation.formatContent. simpl truthy_opt. cbv iota.
  rewrite R. reflexivity.
Qed.

Lemma heading_line_witness :
  ascii_only "parser.py" = true
  /\ plain "parser.py" = true
  /\ single_line "parser.py" = true
  /\ Documentation.formatContent (Some (Str "# parser.py"))
     = Ok ("<h1 class=" ++ Str.dq ++ "doc-h1" ++ Str.dq
           ++ ">parser.py</h1>").
Proof.
  split; [reflexivity|]. split; [reflexivity|]. split; [reflexivity|].
  apply (heading_line "parser.py"); reflexivity.
Defined.

End HeadingFacts.
